(** * Batch import runs: form scripts and pipeline contract

    A shallow embedding of the client scripts of the Run documents
    (Checkin Run, Statement Run / Bank Statement Run, Invoice Run), of the
    Fuel Consumption and Sales Return scripts, and of the generation
    contract of the pipeline, followed by the properties proved about them.

    Conventions of the embedding.
    - A text field of a document is an [option string]: [None] stands for
      JavaScript's null / undefined, [Some s] for the string [s].
    - A handler is a function from the document it closes over to the list
      of effects it performs, in program order (messages, server requests,
      reloads).  Translation through [__()] is the identity.
    - Decimal numbers are rationals ([Q]); a Check field is an integer. *)

From Stdlib Require Import ZArith QArith Qabs Lqa Ascii String.
From Stdlib Require PrimFloat.
From stdpp Require Import gmap strings list fin_maps.

Local Open Scope string_scope.
Local Open Scope list_scope.

(* ===================================================================== *)
(** ** JavaScript values and form effects *)
(* ===================================================================== *)

Module Js.

(** Truthiness of a text value: null, undefined and the empty string are
    falsy. *)
Definition truthy_str (v : option string) : bool :=
  match v with
  | Some s => negb (String.eqb s "")
  | None => false
  end.

(** Truthiness of a number: zero is falsy. *)
Definition truthy_int (z : Z) : bool := negb (z =? 0)%Z.

Definition truthy_num (q : Q) : bool := negb (Qeq_bool q 0).

(** [a || b] on text values. *)
Definition or_str (a b : option string) : option string :=
  if truthy_str a then a else b.

(** [(v || '')]. *)
Definition or_empty (v : option string) : string :=
  match or_str v (Some "") with
  | Some s => s
  | None => ""
  end.

(** [String.prototype.toLowerCase] on the ASCII letters; bytes above 127
    are kept.  The only character outside ASCII whose lower case is an
    ASCII letter is the Kelvin sign (lower case [k]), so for the
    comparisons with ['imported'] and ['parsed'] made by the scripts
    mapping the ASCII letters is exact. *)
Definition lower_ascii (c : ascii) : ascii :=
  let n := N_of_ascii c in
  if ((65 <=? n) && (n <=? 90))%N then ascii_of_N (n + 32) else c.

Fixpoint toLowerCase (s : string) : string :=
  match s with
  | EmptyString => EmptyString
  | String c r => String (lower_ascii c) (toLowerCase r)
  end.

(** [Array.prototype.join]. *)
Fixpoint join (sep : string) (l : list string) : string :=
  match l with
  | [] => ""
  | [x] => x
  | x :: rest => x ++ sep ++ join sep rest
  end.

(** An argument of a server request. *)
Inductive Arg :=
| AStr (s : string)
| AInt (z : Z).

(** What a handler does to the outside world. *)
Inductive Effect :=
| Msgprint (msg : string)
| MsgprintBox (title : string) (indicator : string)
| ServerCall (method : string) (args : list (string * Arg))
| ReloadDoc
| Freeze (msg : string)
| Unfreeze
| ShowAlert (msg : string)
| ShowDialog (title : string)
| ConsoleError (msg : string)
| ClearCustomButtons
| RefreshField (fieldname : string)
| SetRoute (path : list string).

Definition is_server_call (e : Effect) : bool :=
  match e with
  | ServerCall _ _ => true
  | _ => false
  end.

Definition calls_method (m : string) (e : Effect) : bool :=
  match e with
  | ServerCall m' _ => String.eqb m m'
  | _ => false
  end.

Definition is_reload (e : Effect) : bool :=
  match e with
  | ReloadDoc => true
  | _ => false
  end.

(** The server methods that read the source files and normalise their rows
    (named so by the scripts: "Parse Data", "re-parse and open dialog"). *)
Definition parse_methods : list string :=
  [ "cnt_tools.cnt_tools.doctype.checkin_run.checkin_run.parse_source";
    "ajc_tools.ajc_tools.doctype.checkin_run.checkin_run.parse_source";
    "preview_rows";
    "ajc_tools.ajc_tools.doctype.invoice_run.invoice_run.parse_files" ].

Definition is_parse_call (e : Effect) : bool :=
  match e with
  | ServerCall m _ => bool_decide (m ∈ parse_methods)
  | _ => false
  end.

(** The [read_only] property of the fields of a form: a field the form
    lacks has no entry. [frm.set_df_property(fn, 'read_only', v)] changes
    the property of a field the form has and leaves the form alone
    otherwise. *)
Definition set_read_only (v : Z) (ro : gmap string Z) (fn : string)
  : gmap string Z :=
  match ro !! fn with
  | Some _ => <[fn := v]> ro
  | None => ro
  end.

End Js.

(* ===================================================================== *)
(** ** The status of a Run *)
(* ===================================================================== *)

Module Run.

(** The four values of the status field, as the scripts spell them when
    they compare it: 'Draft', 'Parsed', 'Imported', 'Failed'. *)
Inductive Status := Draft | Parsed | Imported | Failed.

Definition status_name (s : Status) : string :=
  match s with
  | Draft => "Draft"
  | Parsed => "Parsed"
  | Imported => "Imported"
  | Failed => "Failed"
  end.

Definition is_imported (s : Status) : bool :=
  match s with
  | Imported => true
  | _ => false
  end.

End Run.

(* ===================================================================== *)
(** ** Statement Run (statement_run.js) and Bank Statement Run *)
(* ===================================================================== *)

Module StatementRun.
Import Js.

Record Doc := {
  name : string;
  status : option string;
  source_file : option string;
  date_column : option string;
  description_column : option string;
  has_credit_debit_columns : Z;
  credit_column : option string;
  debit_column : option string;
  amount_column : option string
}.

(** The list [missing] that [has_min_mapping] builds, push by push. *)
Definition missing_fields (d : Doc) : list string :=
  (if negb (truthy_str (source_file d)) then ["Source File"] else []) ++
  (if negb (truthy_str (date_column d)) then ["Date Column"] else []) ++
  (if negb (truthy_str (description_column d)) then ["Description Column"] else []) ++
  (if truthy_int (has_credit_debit_columns d)
   then (if negb (truthy_str (credit_column d)) then ["Credit Column"] else []) ++
        (if negb (truthy_str (debit_column d)) then ["Debit Column"] else [])
   else (if negb (truthy_str (amount_column d)) then ["Amount Column"] else [])).

(** [has_min_mapping(frm)]: the boolean it returns and the message it
    shows. *)
Definition has_min_mapping (d : Doc) : bool * list Effect :=
  let missing := missing_fields d in
  if (0 <? length missing)%nat
  then (false, [Msgprint ("Please fill: " ++ join ", " missing)])
  else (true, []).

(** What the spec requires of a mapping, in the spec's words: a date and a
    description column always, a single amount column in amount mode, a
    credit and a debit column in credit/debit mode; each with the label
    the validator reports and the value it looks at. *)
Definition required_fields (d : Doc) : list (string * option string) :=
  [("Date Column", date_column d);
   ("Description Column", description_column d)] ++
  (if truthy_int (has_credit_debit_columns d)
   then [("Credit Column", credit_column d); ("Debit Column", debit_column d)]
   else [("Amount Column", amount_column d)]).

(** The labels of the entries whose value is falsy. *)
Definition labels_of_missing (l : list (string * option string))
  : list string :=
  fst <$> filter (fun p => truthy_str (snd p) = false) l.

(** A run with an amount-mode mapping in which only the date and the
    description columns are filled in: no source file either. *)
Definition only_date_and_description : Doc :=
  {| name := "SR-0001"; status := Some "Draft"; source_file := None;
     date_column := Some "Date"; description_column := Some "Narration";
     has_credit_debit_columns := 0; credit_column := None;
     debit_column := None; amount_column := None |}.

(** The same run with its source file attached. *)
Definition amount_column_missing : Doc :=
  {| name := "SR-0002"; status := Some "Draft";
     source_file := Some "/private/files/statement.csv";
     date_column := Some "Date"; description_column := Some "Narration";
     has_credit_debit_columns := 0; credit_column := None;
     debit_column := None; amount_column := None |}.

(** Outcome of the two awaited requests of the Preview handler. *)
Record Outcome := { call_ok : bool; reload_ok : bool }.

(** Click handler of the "Preview" button of Statement Run
    ("Single Preview button: re-parse and open dialog"). *)
Definition preview_click (d : Doc) (o : Outcome) : list Effect :=
  let '(ok, shown) := has_min_mapping d in
  if negb ok then shown
  else
    shown ++
    [Freeze "Parsing statement…";
     ServerCall "preview_rows" [("docname", AStr (name d))]] ++
    (if call_ok o
     then ReloadDoc ::
          (if reload_ok o
           then [ShowDialog "Bank Statement Preview"; ShowAlert "Preview ready."]
           else [ConsoleError "[Statement Run] Preview failed";
                 Msgprint "Preview failed: {0}"])
     else [ConsoleError "[Statement Run] Preview failed";
           Msgprint "Preview failed: {0}"]) ++
    [Unfreeze].

(** The same handler in Bank Statement Run ("Preview Data"): no freeze
    before the request, no alert after it. *)
Definition preview_data_click (d : Doc) (o : Outcome) : list Effect :=
  let '(ok, shown) := has_min_mapping d in
  if negb ok then shown
  else
    shown ++
    [ServerCall "preview_rows" [("docname", AStr (name d))]] ++
    (if call_ok o
     then ReloadDoc ::
          (if reload_ok o
           then [ShowDialog "Bank Statement Preview"]
           else [ConsoleError "[Bank Statement Run] Preview Data failed";
                 Msgprint "Preview Data failed: {0}"])
     else [ConsoleError "[Bank Statement Run] Preview Data failed";
           Msgprint "Preview Data failed: {0}"]) ++
    [Unfreeze].

(** Buttons the form can show. *)
Inductive Button :=
| BtnPreview
| BtnCreateBankTransactions.

(** [add_formatter_buttons(frm)]: Preview always, Create Bank Transactions
    "only after a successful parse". *)
Definition add_formatter_buttons (d : Doc) : list Button :=
  BtnPreview ::
  (if bool_decide (status d = Some "Parsed")
   then [BtnCreateBankTransactions] else []).

Definition is_generate_button (b : Button) : bool :=
  match b with
  | BtnCreateBankTransactions => true
  | BtnPreview => false
  end.

Definition is_preview_button (b : Button) : bool :=
  match b with
  | BtnPreview => true
  | BtnCreateBankTransactions => false
  end.

Definition generate_offered (d : Doc) : bool :=
  existsb is_generate_button (add_formatter_buttons d).

(** The Preview button re-parses; it is added whatever the status. *)
Definition reparse_offered (d : Doc) : bool :=
  existsb is_preview_button (add_formatter_buttons d).

Definition set_status (d : Doc) (s : string) : Doc :=
  {| name := name d; status := Some s; source_file := source_file d;
     date_column := date_column d; description_column := description_column d;
     has_credit_debit_columns := has_credit_debit_columns d;
     credit_column := credit_column d; debit_column := debit_column d;
     amount_column := amount_column d |}.

(** Click handler of "Create Bank Transactions": the client copy of the
    document before the final reload, and the effects.  On success the
    handler writes [status = 'Imported'] itself; on failure "the server
    sets status = Failed" and the reload reflects it. *)
Definition create_bank_transactions_click (d : Doc) (ok : bool)
  : Doc * list Effect :=
  if ok
  then (set_status d "Imported",
        [Freeze "Creating Bank Transactions…";
         ServerCall "create_bank_transactions" [("docname", AStr (name d))];
         ShowAlert "Bank Transactions generated";
         ClearCustomButtons; RefreshField "status";
         ReloadDoc; Unfreeze])
  else (d,
        [Freeze "Creating Bank Transactions…";
         ServerCall "create_bank_transactions" [("docname", AStr (name d))];
         ConsoleError "create_bank_transactions";
         ReloadDoc; Unfreeze]).

(** The form around the document: the [read_only] property of every field
    the form has (a field the form lacks has no entry), and whether the
    toolbar shows the primary action (Save); [None] when there is no
    toolbar. *)
Record Form := {
  doc : Doc;
  read_only : gmap string Z;
  primary_action_visible : option bool
}.

Definition fields_to_lock : list string :=
  ["bank_account"; "statement_start"; "statement_end"; "source_file";
   "lock_mapping_fields"].

Definition is_imported (d : Doc) : bool :=
  bool_decide (status d = Some "Imported").

(** [enforce_import_lock(frm)]: every field of [fields_to_lock] that the
    form has gets its [read_only] property set, and the primary action is
    shown or hidden. *)
Definition enforce_import_lock (f : Form) : Form :=
  let isImported := is_imported (doc f) in
  {| doc := doc f;
     read_only :=
       foldl (set_read_only (if isImported then 1 else 0)%Z) (read_only f)
             fields_to_lock;
     primary_action_visible :=
       match primary_action_visible f with
       | Some _ => Some (negb isImported)
       | None => None
       end |}.

End StatementRun.

(* ===================================================================== *)
(** ** Checkin Run (checkin_run.js, both copies) *)
(* ===================================================================== *)

Module CheckinRun.
Import Js.

(** The two copies of the script differ in the application that serves
    the requests. *)
Inductive App := CntTools | AjcTools.

Definition method (a : App) (fn : string) : string :=
  match a with
  | CntTools => "cnt_tools.cnt_tools.doctype.checkin_run.checkin_run." ++ fn
  | AjcTools => "ajc_tools.ajc_tools.doctype.checkin_run.checkin_run." ++ fn
  end.

Record SourceFile := {
  file : option string;
  row_status : option string
}.

Record Doc := {
  name : string;
  status : option string;
  source_files : option (list SourceFile)
}.

(** [(frm.doc.status || '').toLowerCase()]. *)
Definition lower_status (d : Doc) : string :=
  toLowerCase (or_empty (status d)).

(** [!frm.doc.source_files || !frm.doc.source_files.length]. *)
Definition no_source_files (d : Doc) : bool :=
  match source_files d with
  | None => true
  | Some l => negb (0 <? length l)%nat
  end.

(** [add_parse_button]: the button is hidden "after parsing or
    generation". *)
Definition parse_offered (d : Doc) : bool :=
  let status := lower_status d in
  negb (String.eqb status "imported" || String.eqb status "parsed").

(** Click handler of "Parse Data". *)
Definition parse_click (a : App) (d : Doc) : list Effect :=
  if no_source_files d
  then [Msgprint "Add at least one source file (in the Source Files table) before parsing."]
  else [ServerCall (method a "parse_source")
                   [("name", AStr (name d)); ("show_popup", AInt 1)];
        ReloadDoc].

(** [open_preview_dialog]: the dialog and the request for the first page. *)
Definition open_preview_dialog (a : App) (d : Doc) : list Effect :=
  [ShowDialog "Device Events Overview";
   ServerCall (method a "cr_preview")
              [("name", AStr (name d)); ("start", AInt 0);
               ("page_len", AInt 200); ("order", AStr "desc")]].

(** Click handler of "Preview Data" / "Preview" (always offered). *)
Definition preview_click (a : App) (d : Doc) : list Effect :=
  if no_source_files d
  then [Msgprint "Add at least one source file (in the Source Files table) before previewing."]
  else open_preview_dialog a d.

(** [add_generate_action]: "show Create Employee Checkins ONLY when status
    is Parsed". *)
Definition generate_offered (d : Doc) : bool :=
  String.eqb (lower_status d) "parsed".

(** The answer of generate_checkins as the callback reads it; a count the
    answer lacks is [None]. *)
Record Response := {
  r_created : option Z;
  r_already_exists : option Z;
  r_failed : option Z
}.

(** [x || 0] on a count. *)
Definition or_zero (x : option Z) : Z :=
  match x with
  | Some z => if truthy_int z then z else 0%Z
  | None => 0%Z
  end.

Record Counts := {
  created : Z;
  already_exists : Z;
  failed : Z
}.

(** [const d = r.message || {}; const counts = {...}]. *)
Definition counts_of (r : option Response) : Counts :=
  match r with
  | Some m => {| created := or_zero (r_created m);
                 already_exists := or_zero (r_already_exists m);
                 failed := or_zero (r_failed m) |}
  | None => {| created := 0; already_exists := 0; failed := 0 |}
  end.

(** [counts.failed ? 'red' : (counts.created ? 'green' : 'orange')]. *)
Definition indicator (c : Counts) : string :=
  if truthy_int (failed c) then "red"
  else if truthy_int (created c) then "green" else "orange".

(** Click handler of "Create Employee Checkins", with the answer of the
    server. *)
Definition generate_click (a : App) (d : Doc) (r : option Response)
  : list Effect :=
  [ServerCall (method a "generate_checkins") [("name", AStr (name d))];
   MsgprintBox "Employee Checkins Import" (indicator (counts_of r));
   ReloadDoc].

(** The grid of the source_files table. [file_read_only] is the
    [read_only] property of its file column, [None] when the grid has no
    such column (updating it then throws, which the script swallows). *)
Record Grid := {
  cannot_add_rows : bool;
  cannot_delete_rows : bool;
  add_row_visible : bool;
  remove_rows_visible : bool;
  file_read_only : option Z;
  clear_controls_visible : bool;
  clear_clicks_blocked : bool
}.

Record Form := {
  doc : Doc;
  read_only : gmap string Z;
  grid : option Grid
}.

Definition frozen (d : Doc) : bool := String.eqb (lower_status d) "imported".

Definition parent_fields_to_lock : list string :=
  ["cutoff_time"; "log_window_seconds"].

Definition lock_grid (fr : bool) (g : Grid) : Grid :=
  {| cannot_add_rows := fr;
     cannot_delete_rows := fr;
     add_row_visible := negb fr;
     remove_rows_visible := negb fr;
     file_read_only :=
       match file_read_only g with
       | Some _ => Some (if fr then 1 else 0)%Z
       | None => None
       end;
     (* toggled in the body and again by the deferred re-application *)
     clear_controls_visible := negb fr;
     clear_clicks_blocked :=
       match file_read_only g with
       | Some _ => fr
       | None => clear_clicks_blocked g
       end |}.

(** [enforce_locks(frm)], with its deferred re-application run to the
    end. *)
Definition enforce_locks (f : Form) : Form :=
  let fr := frozen (doc f) in
  {| doc := doc f;
     read_only :=
       foldl (set_read_only (if fr then 1 else 0)%Z) (read_only f)
             parent_fields_to_lock;
     grid :=
       match grid f with
       | None => None
       | Some g => Some (lock_grid fr g)
       end |}.

End CheckinRun.

(* ===================================================================== *)
(** ** Invoice Run (invoice_run.js) *)
(* ===================================================================== *)

Module InvoiceRun.
Import Js.

Record SourceFile := { row_status : option string }.

Record Doc := {
  name : string;
  status : option string;
  source_files : option (list SourceFile);
  ready_count : Z
}.

(** [['Parsed', 'Imported'].includes(frm.doc.status)]. *)
Definition lockParent (d : Doc) : bool :=
  bool_decide (status d ∈ [Some "Parsed"; Some "Imported"]).

Definition parent_fields_to_lock : list string :=
  ["supplier"; "duplicate_check_by"].

(** The form around the document: the [read_only] property of its
    fields. *)
Record Form := {
  doc : Doc;
  read_only : gmap string Z
}.

(** "Lock certain parent fields when Parsed/Imported":
    [frm.toggle_enable(['supplier', 'duplicate_check_by'], !lockParent)]
    sets [read_only] to 0 when enabling and to 1 otherwise, on the fields
    the form has. *)
Definition lock_parent_fields (f : Form) : Form :=
  {| doc := doc f;
     read_only :=
       foldl (set_read_only (if negb (lockParent (doc f)) then 0 else 1)%Z)
             (read_only f) parent_fields_to_lock |}.

(** [(frm.doc.source_files || []).some(r => ['Draft','Error'].includes(r.status))]. *)
Definition hasDraftOrErrorChild (d : Doc) : bool :=
  existsb (fun r => bool_decide (row_status r ∈ [Some "Draft"; Some "Error"]))
          (default [] (source_files d)).

(** "Show Parse Data in Draft OR when any child is Draft/Error". *)
Definition parse_offered (d : Doc) : bool :=
  bool_decide (status d = Some "Draft") || hasDraftOrErrorChild d.

(** "Show preview when there are ready rows or parent is Parsed"; the
    "Create Purchase Invoices" action is added under the same test. *)
Definition generate_offered (d : Doc) : bool :=
  (0 <? ready_count d)%Z || bool_decide (status d = Some "Parsed").

Definition parse_click (d : Doc) : list Effect :=
  [ServerCall "ajc_tools.ajc_tools.doctype.invoice_run.invoice_run.parse_files"
              [("name", AStr (name d))];
   ReloadDoc].

Definition generate_click (d : Doc) : list Effect :=
  [ServerCall "ajc_tools.ajc_tools.doctype.invoice_run.invoice_run.create_purchase_invoices"
              [("name", AStr (name d))];
   ReloadDoc].

End InvoiceRun.

(* ===================================================================== *)
(** ** Fuel Consumption: grouped purchase invoice *)
(* ===================================================================== *)

Module FuelConsumption.
Import Js.
Import PrimFloat.

(** A row of fuel_consumption_details; [amount_consumed] is the double
    that [flt(row.amount_consumed)] returns. *)
Record DetailRow := {
  cost_center : option string;
  shared_use_cost_center : option string;
  amount_consumed : float
}.

Record Doc := {
  name : string;
  fuel_consumption_details : option (list DetailRow)
}.

(** [row.cost_center || row.shared_use_cost_center]. *)
Definition row_cost_center (row : DetailRow) : option string :=
  or_str (cost_center row) (shared_use_cost_center row).

(** The property names that the object literal [{}] inherits from
    Object.prototype. *)
Definition object_prototype_keys : list string :=
  ["constructor"; "__defineGetter__"; "__defineSetter__"; "hasOwnProperty";
   "__lookupGetter__"; "__lookupSetter__"; "isPrototypeOf";
   "propertyIsEnumerable"; "toString"; "valueOf"; "__proto__";
   "toLocaleString"].

(** A value that [grouped] holds: a number, or the text that [+=] makes
    when its left side is not a number.  [Text base appended] is the text
    of the inherited member [base] followed by the decimal renderings of
    the numbers [appended], in this order. *)
Inductive Value :=
| Num (x : float)
| Text (base : string) (appended : list float).

(** What [grouped[k]] reads: an own property, an inherited member (a
    function, or the prototype object for [__proto__]), or undefined. *)
Inductive Read :=
| Own (v : Value)
| Inherited
| Undefined.

Definition get (grouped : gmap string Value) (k : string) : Read :=
  match grouped !! k with
  | Some v => Own v
  | None =>
      if bool_decide (k ∈ object_prototype_keys) then Inherited
      else Undefined
  end.

(** A number is falsy when it is 0, -0 or NaN. *)
Definition truthy_float (x : float) : bool :=
  negb (is_zero x || is_nan x).

(** The text of a member is never empty. *)
Definition truthy_read (r : Read) : bool :=
  match r with
  | Own (Num x) => truthy_float x
  | Own (Text _ _) => true
  | Inherited => true
  | Undefined => false
  end.

(** [grouped[k] = v] for a number or a text [v]: an own property, except
    under [__proto__], whose inherited setter ignores such a value. *)
Definition set (k : string) (v : Value) (grouped : gmap string Value)
  : gmap string Value :=
  if bool_decide (k = "__proto__") then grouped else <[k := v]> grouped.

(** [grouped[k] + x] for a number [x]: addition of doubles, or
    concatenation when the left side is a text, a function or an
    object. *)
Definition plus (k : string) (r : Read) (x : float) : Value :=
  match r with
  | Own (Num a) => Num (a + x)
  | Own (Text base appended) => Text base (appended ++ [x])
  | Inherited => Text k [x]
  | Undefined => Num nan
  end.

(** The body of the grouping loop:
    [if (!grouped[k]) grouped[k] = 0; grouped[k] += flt(...)]. *)
Definition group_row (grouped : gmap string Value) (row : DetailRow)
  : gmap string Value :=
  let cc := row_cost_center row in
  if negb (truthy_str cc) then grouped
  else
    match cc with
    | None => grouped
    | Some k =>
        let grouped1 :=
          if negb (truthy_read (get grouped k))
          then set k (Num 0) grouped else grouped in
        set k (plus k (get grouped1 k) (amount_consumed row)) grouped1
    end.

Definition group_rows (rows : list DetailRow) : gmap string Value :=
  foldl group_row ∅ rows.

Record InvoiceItem := {
  item_code : string;
  qty : Z;
  rate : Value;
  amount : Value;
  item_cost_center : string;
  custom_fuel_consumption : string
}.

Definition make_item (docname : string) (kv : string * Value) : InvoiceItem :=
  {| item_code := "NS-00106";
     qty := 1%Z;
     rate := snd kv;
     amount := snd kv;
     item_cost_center := fst kv;
     custom_fuel_consumption := docname |}.

(** [Object.keys(grouped).map(...)]: the own properties of [grouped].
    Object.keys lists integer-like names first and the others in the
    order of their creation; the order of the items plays no part in what
    is proved. *)
Definition invoice_items (docname : string) (grouped : gmap string Value)
  : list InvoiceItem :=
  make_item docname <$> map_to_list grouped.

Inductive Result :=
| NoData (msg : string)
| InsertPurchaseInvoice (supplier : string) (items : list InvoiceItem).

(** [create_purchase_invoice(frm)] up to the insert request. *)
Definition create_purchase_invoice (d : Doc) : Result :=
  let grouped := group_rows (default [] (fuel_consumption_details d)) in
  if (length (map_to_list grouped) =? 0)%nat
  then NoData "No fuel consumption data found."
  else InsertPurchaseInvoice "S0026" (invoice_items (name d) grouped).

(** The key a row is grouped under, if it is grouped at all. *)
Definition grouping_key (row : DetailRow) : option string :=
  match row_cost_center row with
  | Some k => if truthy_str (Some k) then Some k else None
  | None => None
  end.

(** The amounts of the rows grouped under [k], in row order. *)
Definition group_amounts (k : string) (rows : list DetailRow) : list float :=
  amount_consumed <$> filter (fun row => grouping_key row = Some k) rows.

(** One step of the running total of a group: the total so far, taken as
    0 when it is 0, -0 or NaN, plus the next amount, in doubles. *)
Definition add_amount (total x : float) : float :=
  (if truthy_float total then total else 0) + x.

(** The total of the group [k]: its amounts added in row order. *)
Definition group_total (k : string) (rows : list DetailRow) : float :=
  foldl add_amount 0%float (group_amounts k rows).

End FuelConsumption.

(* ===================================================================== *)
(** ** Sales Return: credit note *)
(* ===================================================================== *)

Module SalesReturn.
Import Js.

Record ItemRow := {
  item_code : option string;
  qty : option Q;
  batch_no : option string
}.

Record Doc := {
  name : string;
  customer : option string;
  items : option (list ItemRow)
}.

Record InvoiceLine := {
  line_item_code : option string;
  line_qty : option Q;
  line_batch_no : option string;
  custom_sales_return : string
}.

(** [row.qty > 0 ? -1 * row.qty : row.qty]; a missing quantity compares
    false and is passed on. *)
Definition credit_qty (q : option Q) : option Q :=
  match q with
  | Some v => if negb (Qle_bool v 0) then Some (-1 * v)%Q else Some v
  | None => None
  end.

Definition invoice_line (docname : string) (row : ItemRow) : InvoiceLine :=
  {| line_item_code := item_code row;
     line_qty := credit_qty (qty row);
     line_batch_no := batch_no row;
     custom_sales_return := docname |}.

Inductive Result :=
| Refused (msg : string)
| InsertSalesInvoice (customer : string) (is_return : Z)
                     (lines : list InvoiceLine).

(** Click handler of "Create Credit Note" up to the insert request. *)
Definition create_credit_note_click (d : Doc) : Result :=
  match customer d, items d with
  | Some c, Some rows =>
      if negb (truthy_str (Some c)) || (length rows =? 0)%nat
      then Refused "Please select a customer and add at least one item."
      else InsertSalesInvoice c 1 (invoice_line (name d) <$> rows)
  | _, _ => Refused "Please select a customer and add at least one item."
  end.

Definition positive_qty (q : option Q) : Prop :=
  match q with
  | Some v => (0 < v)%Q
  | None => False
  end.

End SalesReturn.

(* ===================================================================== *)
(** ** The pipeline contract *)
(* ===================================================================== *)

Module Pipeline.

Import Run.

(** The two operations of a Run that change its status. *)
Inductive Op := OpParse | OpGenerate.

(** Modelled from the spec: the transition table of the Run State Machine,
    "Draft -> Parsed -> Imported | Failed", with "Failed -> Draft" by an
    explicit operator re-parse; the server handlers that perform the
    transitions are missing. *)
Definition successors (s : Status) (op : Op) : list Status :=
  match s, op with
  | Draft, OpParse => [Parsed]
  | Parsed, OpGenerate => [Imported; Failed]
  | Failed, OpParse => [Draft]
  | _, _ => []
  end.

Definition transition (s : Status) (op : Op) (s' : Status) : Prop :=
  s' ∈ successors s op.

(** Position of a status along Draft -> Parsed -> {Imported, Failed}. *)
Definition rank (s : Status) : nat :=
  match s with
  | Draft => 0
  | Parsed => 1
  | Imported => 2
  | Failed => 2
  end.

Section Engine.

Context {Key Fields : Type} `{EqDecision Key}.

(** The order of the natural keys, and the record store's verdict on the
    fields of a record it is asked to create (the store is an external
    collaborator). *)
Variable key_le : Key -> Key -> bool.
Variable store_accepts : Fields -> bool.

(** Modelled from the spec: CanonicalRow, "natural_key, fields, ready"
    (the Row Normalizer that builds the rows is server code, missing). *)
Record CanonicalRow := {
  natural_key : Key;
  fields : Fields;
  ready : bool
}.

(** Modelled from the spec: GeneratedRecord, the downstream object kept by
    the record store; the store itself enforces no uniqueness. *)
Record GeneratedRecord := {
  record_key : Key;
  record_fields : Fields
}.

Inductive Detail :=
| RowSkipped (k : Key)
| RowExists (k : Key)
| RowCreated (k : Key) (id : nat)
| RowFailed (k : Key).

(** Modelled from the spec: the result of generate, "{created,
    already_exists, failed, skipped, details[]}". *)
Record Result := {
  created : nat;
  already_exists : nat;
  failed : nat;
  skipped : nat;
  details : list Detail
}.


Definition no_result : Result :=
  {| created := 0; already_exists := 0; failed := 0; skipped := 0;
     details := [] |}.

Definition add_skipped (k : Key) (r : Result) : Result :=
  {| created := created r; already_exists := already_exists r;
     failed := failed r; skipped := S (skipped r);
     details := RowSkipped k :: details r |}.

Definition add_exists (k : Key) (r : Result) : Result :=
  {| created := created r; already_exists := S (already_exists r);
     failed := failed r; skipped := skipped r;
     details := RowExists k :: details r |}.

Definition add_created (k : Key) (id : nat) (r : Result) : Result :=
  {| created := S (created r); already_exists := already_exists r;
     failed := failed r; skipped := skipped r;
     details := RowCreated k id :: details r |}.

Definition add_failed (k : Key) (r : Result) : Result :=
  {| created := created r; already_exists := already_exists r;
     failed := S (failed r); skipped := skipped r;
     details := RowFailed k :: details r |}.

(** The natural keys of the records in the store. *)
Definition keys (st : list GeneratedRecord) : list Key := record_key <$> st.

(** Modelled from the spec: the Dedup Resolver, "exists(natural_key) ->
    bool", a query of the record store made once per row immediately
    before creation (the server code of the resolver is missing). *)
Definition dedup_exists (store : list GeneratedRecord) (k : Key) : bool :=
  bool_decide (k ∈ keys store).

(** Modelled from the spec: steps 1 to 3 of the Generation Engine over the
    rows in the order given; skip rows that are not ready, count a Dedup
    Resolver hit as already_exists, otherwise create and count created, or
    failed when the store rejects the record, and carry on with the
    remaining rows (generate_checkins and its siblings are missing). *)
Fixpoint generate_rows (rows : list CanonicalRow)
                       (store : list GeneratedRecord)
  : Result * list GeneratedRecord :=
  match rows with
  | [] => (no_result, store)
  | row :: rest =>
      let k := natural_key row in
      if negb (ready row) then
        let '(res, st) := generate_rows rest store in (add_skipped k res, st)
      else if dedup_exists store k then
        let '(res, st) := generate_rows rest store in (add_exists k res, st)
      else if store_accepts (fields row) then
        let rec := {| record_key := k; record_fields := fields row |} in
        let '(res, st) := generate_rows rest (store ++ [rec]) in
        (add_created k (length store) res, st)
      else
        let '(res, st) := generate_rows rest store in (add_failed k res, st)
  end.

(** Stable insertion sort by natural key. *)
Fixpoint insert_by_key (row : CanonicalRow) (l : list CanonicalRow)
  : list CanonicalRow :=
  match l with
  | [] => [row]
  | x :: rest =>
      if key_le (natural_key row) (natural_key x)
      then row :: l
      else x :: insert_by_key row rest
  end.

Definition sort_by_key (rows : list CanonicalRow) : list CanonicalRow :=
  foldr insert_by_key [] rows.

(** Modelled from the spec: generate(Run), the engine run "in natural-key
    order (stable)" over the rows of the Run against the record store. *)
Definition generate (rows : list CanonicalRow) (store : list GeneratedRecord)
  : Result * list GeneratedRecord :=
  generate_rows (sort_by_key rows) store.








End Engine.

End Pipeline.

(* ===================================================================== *)
(** ** Text helpers of the scripts *)
(* ===================================================================== *)

Module Text.

Definition is_lt (c : ascii) : bool := Ascii.eqb c "<".
Definition is_gt (c : ascii) : bool := Ascii.eqb c ">".

Fixpoint contains_gt (s : string) : bool :=
  match s with
  | EmptyString => false
  | String c r => is_gt c || contains_gt r
  end.

Fixpoint contains_lt (s : string) : bool :=
  match s with
  | EmptyString => false
  | String c r => is_lt c || contains_lt r
  end.

(** [s.replace(/<[^>]*>/g, '')], read left to right.  Outside a match, a
    [<] opens one if a [>] follows somewhere (the match then runs to the
    first [>]); a [<] with no [>] after it is kept.  [inside] tells
    whether a match is open.  Both characters are ASCII, so reading bytes
    is the same as reading code units. *)
Fixpoint remove_tags (inside : bool) (s : string) : string :=
  match s with
  | EmptyString => EmptyString
  | String c r =>
      if inside then
        if is_gt c then remove_tags false r else remove_tags true r
      else if is_lt c && contains_gt r then remove_tags true r
      else String c (remove_tags false r)
  end.

(** [stripHtml(html)]. *)
Definition stripHtml (html : option string) : string :=
  if negb (Js.truthy_str html) then ""
  else match html with
       | Some s => remove_tags false s
       | None => ""
       end.

(** Whether [/<[^>]*>/] matches somewhere in [s]: some [<] has a [>]
    after it. *)
Fixpoint has_tag (s : string) : bool :=
  match s with
  | EmptyString => false
  | String c r => (is_lt c && contains_gt r) || has_tag r
  end.

(** White space and line terminators of ECMAScript, by their UTF-8
    bytes: TAB, LF, VT, FF, CR, SP; U+00A0; U+1680, U+2000 to U+200A,
    U+2028, U+2029, U+202F, U+205F, U+3000, U+FEFF. *)
Definition ws1 (c : ascii) : bool :=
  let n := N_of_ascii c in
  ((9 <=? n) && (n <=? 13) || (n =? 32))%N.

Definition ws2 (c1 c2 : ascii) : bool :=
  ((N_of_ascii c1 =? 194) && (N_of_ascii c2 =? 160))%N.

Definition ws3 (c1 c2 c3 : ascii) : bool :=
  let n1 := N_of_ascii c1 in
  let n2 := N_of_ascii c2 in
  let n3 := N_of_ascii c3 in
  ((n1 =? 225) && (n2 =? 154) && (n3 =? 128)
   || (n1 =? 226) && (n2 =? 128)
      && ((128 <=? n3) && (n3 <=? 138) || (n3 =? 168) || (n3 =? 169)
          || (n3 =? 175))
   || (n1 =? 226) && (n2 =? 129) && (n3 =? 159)
   || (n1 =? 227) && (n2 =? 128) && (n3 =? 128)
   || (n1 =? 239) && (n2 =? 187) && (n3 =? 191))%N.

(** Drops the white space at the front of [s]; with [backwards], [s] is
    a text read from its end, so the bytes of a character come in
    reverse. *)
Fixpoint drop_space (backwards : bool) (s : string) : string :=
  match s with
  | EmptyString => s
  | String c1 r1 =>
      if ws1 c1 then drop_space backwards r1
      else
        match r1 with
        | EmptyString => s
        | String c2 r2 =>
            if (if backwards then ws2 c2 c1 else ws2 c1 c2)
            then drop_space backwards r2
            else
              match r2 with
              | EmptyString => s
              | String c3 r3 =>
                  if (if backwards then ws3 c3 c2 c1 else ws3 c1 c2 c3)
                  then drop_space backwards r3
                  else s
              end
        end
  end.

(** Made of ASCII blanks (space, tab, line breaks) only. *)
Fixpoint blank (s : string) : bool :=
  match s with
  | EmptyString => true
  | String c r => ws1 c && blank r
  end.

Fixpoint rev_onto (acc s : string) : string :=
  match s with
  | EmptyString => acc
  | String c r => rev_onto (String c acc) r
  end.

Definition reverse (s : string) : string := rev_onto EmptyString s.

(** [String.prototype.trim]. *)
Definition trim (s : string) : string :=
  reverse (drop_space true (reverse (drop_space false s))).

End Text.

(* ===================================================================== *)
(** ** Sales Return: barcode scan *)
(* ===================================================================== *)

Module BarcodeScan.
Import Js.

(** The quantity of an item row as JavaScript holds it. *)
Inductive Qty :=
| QtyNull
| QtyUndefined
| QtyNum (q : Q)
| QtyNaN.

(** [qty += 1]: null counts as zero, undefined gives NaN.  A number is
    kept by its exact value; the result is the one that the addition of
    doubles gives whenever [adds_one_exactly] holds. *)
Definition add_one (q : Qty) : Qty :=
  match q with
  | QtyNull => QtyNum 1
  | QtyUndefined => QtyNaN
  | QtyNum v => QtyNum (v + 1)
  | QtyNaN => QtyNaN
  end.

(** Whether [+= 1] on this quantity is exact in doubles: it is for null
    and for a whole number below 2^53 in size, whose successor is again a
    double. *)
Definition adds_one_exactly (q : Qty) : bool :=
  match q with
  | QtyNull => true
  | QtyNum v =>
      ((Qnum v mod Zpos (Qden v) =? 0)
       && (Z.abs (Qnum v / Zpos (Qden v)) <? 2 ^ 53))%Z
  | QtyUndefined | QtyNaN => false
  end.

Record Row := {
  item_code : option string;
  qty : Qty;
  batch_no : option string
}.

Record Form := {
  scan_barcode : option string;
  items : option (list Row)
}.

Definition set_qty (r : Row) (q : Qty) : Row :=
  {| item_code := item_code r; qty := q; batch_no := batch_no r |}.

(** [frm.doc.items.find(d => d.item_code === item_code)] followed by
    [existing.qty += 1]: the rows with the first row of that item
    incremented, or [None] when no row has the item. *)
Fixpoint bump (code : string) (rows : list Row) : option (list Row) :=
  match rows with
  | [] => None
  | r :: rest =>
      if bool_decide (item_code r = Some code)
      then Some (set_qty r (add_one (qty r)) :: rest)
      else match bump code rest with
           | Some rest' => Some (r :: rest')
           | None => None
           end
  end.

(** [frm.add_child('items')] with its two assignments. *)
Definition new_row (code : string) : Row :=
  {| item_code := Some code; qty := QtyNum 1; batch_no := None |}.

(** The rows after the item [code] was found for the scanned barcode. *)
Definition add_scanned (code : string) (rows : list Row) : list Row :=
  match bump code rows with
  | Some rows' => rows'
  | None => rows ++ [new_row code]
  end.

Definition clear_scan (f : Form) (rows : option (list Row)) : Form :=
  {| scan_barcode := Some ""; items := rows |}.

(** The [callback] of the request, given [r.message]; [None] when
    [frm.doc.items] is missing, as [find] then throws and the rest of the
    callback does not run.  A message is recorded by the template handed
    to [__], here with [{0}] standing for the scanned barcode. *)
Definition on_response (f : Form) (message : option string)
  : option (Form * list Effect) :=
  if truthy_str message then
    match message, items f with
    | Some code, Some rows =>
        Some (clear_scan f (Some (add_scanned code rows)),
              [RefreshField "items"])
    | _, _ => None
    end
  else Some (clear_scan f (items f),
             [Msgprint "No item found for barcode: {0}"]).

(** The [error] handler of the request. *)
Definition on_error (f : Form) : Form * list Effect :=
  (clear_scan f (items f),
   [ConsoleError "Barcode scan error:";
    Msgprint "An error occurred while scanning. Please try again."]).

(** [scan_barcode(frm)] up to the request. *)
Definition scan_barcode_changed (f : Form) : Form * list Effect :=
  if negb (truthy_str (scan_barcode f)) then (f, [])
  else
    let barcode := Text.trim (or_empty (scan_barcode f)) in
    if String.eqb barcode ""
    then (clear_scan f (items f), [Msgprint "Scanned barcode is empty."])
    else (f, [ServerCall "get_item_by_barcode" [("barcode", AStr barcode)]]).

(** The rows of an item. *)
Definition rows_of (code : string) (rows : list Row) : list Row :=
  filter (fun r => item_code r = Some code) rows.

(** The sum of the quantities, when every one of them is a number. *)
Fixpoint total_qty (rows : list Row) : option Q :=
  match rows with
  | [] => Some 0%Q
  | r :: rest =>
      match qty r, total_qty rest with
      | QtyNum v, Some t => Some (v + t)%Q
      | _, _ => None
      end
  end.

End BarcodeScan.

(* ===================================================================== *)
(** ** Checkin Run: the list of created check-ins *)
(* ===================================================================== *)

Module CheckinList.
Import Js.

(** "Show after an import attempt": the test under which View Employee
    Checkins is added, on refresh and after save. *)
Definition view_offered (is_new : bool) (d : CheckinRun.Doc) : bool :=
  negb is_new
  && (bool_decide (CheckinRun.status d = Some "Imported")
      || bool_decide (CheckinRun.status d = Some "Failed")).

Inductive FilterCall := ClearFilters | ApplyFn | Apply.

Inductive Polling :=
| Applied (tick : nat) (calls : list FilterCall)
| GaveUp (tick : nat)
| Waiting.

(** [_apply_filters_when_ready(doctype, applyFn, attempts)].  [ready t]
    tells whether, at the [t]-th run of [attempt], the list of that
    doctype is there with its filter area; the first run is queued at
    once and each retry 150 ms after the run before it.  The retry reads
    [attempts] and never lowers it.  [fuel] bounds the runs looked at:
    [Waiting] means a further run is still queued after them. *)
Fixpoint attempt (ready : nat -> bool) (attempts : nat) (tick fuel : nat)
  : Polling :=
  match fuel with
  | O => Waiting
  | S fuel' =>
      if ready tick then Applied tick [ClearFilters; ApplyFn; Apply]
      else if (0 <? attempts)%nat
           then attempt ready attempts (S tick) fuel'
           else GaveUp tick
  end.

Definition apply_filters_when_ready (ready : nat -> bool) (attempts : nat)
                                    (fuel : nat) : Polling :=
  attempt ready attempts 0 fuel.

End CheckinList.

(* ===================================================================== *)
(** ** Invoice Run: the import log action *)
(* ===================================================================== *)

Module InvoiceRunLog.
Import Js.

(** The other fields of the document that the refresh reads. *)
Record Counters := {
  import_log : option string;
  parsed_count : Z;
  failed_count : Z;
  skipped_count : Z
}.

(** [(frm.doc.import_log || '').trim().length > 0]. *)
Definition hasLog (c : Counters) : bool :=
  (0 <? String.length (Text.trim (or_empty (import_log c))))%nat.

Definition hasParsed (d : InvoiceRun.Doc) (c : Counters) : bool :=
  bool_decide (InvoiceRun.status d = Some "Parsed")
  || (0 <? parsed_count c)%Z || (0 <? InvoiceRun.ready_count d)%Z.

Definition hasFailures (d : InvoiceRun.Doc) (c : Counters) : bool :=
  (0 <? failed_count c)%Z || (0 <? skipped_count c)%Z
  || bool_decide (InvoiceRun.status d = Some "Failed").

(** "Always offer View Import Log when there's anything to inspect". *)
Definition log_offered (d : InvoiceRun.Doc) (c : Counters) : bool :=
  hasLog c || hasParsed d c || hasFailures d c.

Inductive Button :=
| BtnParseData
| BtnViewImportLog
| BtnPreview
| BtnCreatePurchaseInvoices.

(** The custom buttons that [refresh] adds, in order. *)
Definition refresh_buttons (d : InvoiceRun.Doc) (c : Counters)
  : list Button :=
  (if InvoiceRun.parse_offered d then [BtnParseData] else []) ++
  (if log_offered d c then [BtnViewImportLog] else []) ++
  (if InvoiceRun.generate_offered d
   then [BtnPreview; BtnCreatePurchaseInvoices] else []).

End InvoiceRunLog.

(* ===================================================================== *)
(** ** Forms whose document has changed *)
(* ===================================================================== *)

Module Reloaded.



End Reloaded.

(* ===================================================================== *)
(** ** Vehicle and Fuel Card: field access by workflow state *)
(* ===================================================================== *)

Module Vehicle.
Import Js.

Record Doc := {
  islocal : bool;
  workflow_state : option string
}.

Definition conditionally_editable_fields : list string :=
  ["employee"; "insurance_company"; "policy_no"; "start_date"; "end_date";
   "custom_insurance_premium"; "custom_registration_expiry_date";
   "chassis_no"; "custom_engine_no";
   "custom_nhra_cold_chain_certificate_reference";
   "custom_nhra_cold_chain_certificate_issue_date";
   "custom_license_number"; "custom_license_number_expiry_date"].

Definition static_fields : list string :=
  ["license_plate"; "custom_model_year"; "make"; "model"; "custom_type";
   "custom_cold_chain"; "color"].

Definition is_editable (d : Doc) : bool :=
  islocal d || bool_decide (workflow_state d = Some "Update in Progress").

(** [toggle_field_access(frm)] of the Vehicle script, on the [read_only]
    property of the fields of the form; [!is_editable] is recorded as 1
    or 0. *)
Definition toggle_field_access (d : Doc) (ro : gmap string Z)
  : gmap string Z :=
  foldl (set_read_only (if islocal d then 0 else 1)%Z)
        (foldl (set_read_only (if is_editable d then 0 else 1)%Z) ro
               conditionally_editable_fields)
        static_fields.

End Vehicle.

Module FuelCard.
Import Js.

Record Doc := {
  islocal : bool;
  workflow_state : option string;
  card_assignment_type : option string;
  vehicle : option string;
  department : option string
}.

(** The properties of a field that the script sets; the flags are
    recorded by their truthiness. *)
Record Field := {
  hidden : bool;
  read_only : bool;
  reqd : bool;
  options : option string
}.

Definition with_hidden (v : bool) (f : Field) : Field :=
  {| hidden := v; read_only := read_only f; reqd := reqd f;
     options := options f |}.

Definition with_read_only (v : bool) (f : Field) : Field :=
  {| hidden := hidden f; read_only := v; reqd := reqd f;
     options := options f |}.

Definition with_reqd (v : bool) (f : Field) : Field :=
  {| hidden := hidden f; read_only := read_only f; reqd := v;
     options := options f |}.

Definition with_options (v : string) (f : Field) : Field :=
  {| hidden := hidden f; read_only := read_only f; reqd := reqd f;
     options := Some v |}.

(** [frm.set_df_property(fieldname, property, value)]: a field the form
    lacks is left alone. *)
Definition set_df (change : Field -> Field) (fieldname : string)
                  (form : gmap string Field) : gmap string Field :=
  alter change fieldname form.

Definition lock_all_fields : list string :=
  ["vehicle"; "employee"; "department"; "license_plate"; "make"; "model";
   "monthly_fuel_budget"; "fuel_card_expiry_date"; "card_assignment_type"].

Definition newline : string := String (ascii_of_N 10) EmptyString.

Definition all_options : string :=
  join newline ["Vehicle Locked"; "Employee Assigned"; "Shared Use"].

Definition editable_options : string :=
  join newline ["Employee Assigned"; "Shared Use"].

(** The filter put on the employee picker. *)
Inductive EmployeeQuery :=
| EmployeeOfVehicle (vehicle : string)
| ActiveEmployees.

Record Outcome := {
  form : gmap string Field;
  doc : Doc;
  employee_query : option EmployeeQuery
}.

Definition lock_one (fieldname : string) (form : gmap string Field)
  : gmap string Field :=
  set_df (with_reqd false) fieldname
    (set_df (with_hidden false) fieldname
       (set_df (with_read_only true) fieldname form)).

Definition set_department (d : Doc) (v : string) : Doc :=
  {| islocal := islocal d; workflow_state := workflow_state d;
     card_assignment_type := card_assignment_type d; vehicle := vehicle d;
     department := Some v |}.

(** [toggle_field_access(frm)] of the Fuel Card script.  In the Shared
    Use branch the third call for the department,
    [frm.set_df_property('department', is_new || is_update)], names no
    property of the four recorded here and changes none of them. *)
Definition toggle_field_access (d : Doc) (f0 : gmap string Field) : Outcome :=
  let is_new := islocal d in
  let in_update := bool_decide (workflow_state d = Some "Update in Progress") in
  let is_update := in_update || is_new in
  let is_cancelled := bool_decide (workflow_state d = Some "Cancelled") in
  let is_vehicle_locked :=
    bool_decide (card_assignment_type d = Some "Vehicle Locked") in
  let is_employee_assigned :=
    bool_decide (card_assignment_type d = Some "Employee Assigned") in
  let is_shared_use :=
    bool_decide (card_assignment_type d = Some "Shared Use") in
  if is_cancelled then
    {| form := foldl (fun fm fieldname => lock_one fieldname fm) f0
                     lock_all_fields;
       doc := d; employee_query := None |}
  else
    (* Vehicle *)
    let f1 := set_df (with_hidden (negb is_vehicle_locked)) "vehicle" f0 in
    let f2 := set_df (with_read_only (negb is_new && is_vehicle_locked))
                     "vehicle" f1 in
    let f3 := set_df (with_reqd (is_vehicle_locked && is_new)) "vehicle" f2 in
    (* Employee *)
    let f4 := set_df (with_hidden is_shared_use) "employee" f3 in
    let lock_employee_due_to_assignment :=
      (is_vehicle_locked && negb is_update)
      || (is_employee_assigned && negb is_update) in
    let f5 := set_df (with_read_only
                        (lock_employee_due_to_assignment || is_cancelled))
                     "employee" f4 in
    let f6 := set_df (with_reqd (is_employee_assigned && (is_new || is_update)))
                     "employee" f5 in
    let query :=
      if is_vehicle_locked && truthy_str (vehicle d)
      then EmployeeOfVehicle (or_empty (vehicle d))
      else ActiveEmployees in
    (* Department *)
    let f7 := set_df (with_hidden false) "department" f6 in
    let f8 :=
      if is_shared_use
      then set_df (with_read_only (negb is_update)) "department" f7
      else set_df (with_reqd false) "department"
             (set_df (with_read_only true) "department" f7) in
    let d' :=
      if is_shared_use && is_new && negb (truthy_str (department d))
      then set_department d "General Services - AJC"
      else d in
    (* Monthly fuel budget, card expiry *)
    let f9 := set_df (with_read_only (negb is_update)) "monthly_fuel_budget"
                     f8 in
    let f10 := set_df (with_read_only (negb is_new)) "fuel_card_expiry_date"
                      f9 in
    (* Assignment type *)
    let assignment_locked :=
      (negb is_new && is_vehicle_locked) || (negb is_new && negb in_update) in
    let f11 := set_df (with_read_only assignment_locked)
                      "card_assignment_type" f10 in
    let f12 :=
      if assignment_locked
      then set_df (with_options all_options) "card_assignment_type" f11
      else if is_new
           then set_df (with_options all_options) "card_assignment_type" f11
           else set_df (with_options editable_options)
                       "card_assignment_type" f11 in
    {| form := f12; doc := d'; employee_query := Some query |}.

End FuelCard.

(* ===================================================================== *)
(** * Properties *)
(* ===================================================================== *)

(** ** Mapping validator *)

Section MappingValidator.
Import Js StatementRun.

Lemma truthy_str_Some (s : string) :
  truthy_str (Some s) = true ↔ s ≠ "".
Proof.
  unfold truthy_str. rewrite negb_true_iff.
  destruct (String.eqb_spec s ""); split; congruence.
Qed.

Lemma labels_of_missing_cons (label : string) (v : option string)
      (rest : list (string * option string)) :
  labels_of_missing ((label, v) :: rest) =
    (if negb (truthy_str v) then [label] else []) ++ labels_of_missing rest.
Proof.
  unfold labels_of_missing. rewrite filter_cons. simpl.
  destruct (truthy_str v); reflexivity.
Qed.

Lemma has_min_mapping_fst (d : Doc) :
  fst (has_min_mapping d) = true ↔ missing_fields d = [].
Proof.
  unfold has_min_mapping.
  destruct (missing_fields d) as [|m ms]; simpl; split; congruence.
Qed.

Lemma has_min_mapping_no_call (d : Doc) :
  existsb is_server_call (snd (has_min_mapping d)) = false.
Proof.
  unfold has_min_mapping. destruct (0 <? _)%nat; reflexivity.
Qed.

(** C5, as stated, fails: with only the date and description columns set
    the validator also misses the source file, so the list it reports is
    ["Source File"; "Amount Column"], not ["Amount Column"]. *)
Lemma has_min_mapping_only_date_and_description :
  has_min_mapping only_date_and_description
    = (false, [Msgprint "Please fill: Source File, Amount Column"])
  ∧ missing_fields only_date_and_description ≠ ["Amount Column"].
Proof. split; [reflexivity | discriminate]. Qed.

(** C5, amended: for an amount-mode mapping whose source file, date column
    and description column are set and whose amount column is not, the
    validator returns false and the missing list is exactly
    ["Amount Column"]. *)
Theorem has_min_mapping_amount_missing (d : Doc) :
  truthy_str (source_file d) = true →
  truthy_str (date_column d) = true →
  truthy_str (description_column d) = true →
  truthy_int (has_credit_debit_columns d) = false →
  truthy_str (amount_column d) = false →
  missing_fields d = ["Amount Column"]
  ∧ has_min_mapping d = (false, [Msgprint "Please fill: Amount Column"]).
Proof.
  intros Hs Hd Hx Hm Ha.
  assert (missing_fields d = ["Amount Column"]) as Hmiss.
  { unfold missing_fields. rewrite Hs, Hd, Hx, Hm, Ha. reflexivity. }
  split; [exact Hmiss|].
  unfold has_min_mapping. rewrite Hmiss. reflexivity.
Qed.

Lemma has_min_mapping_amount_missing_witness :
  missing_fields amount_column_missing = ["Amount Column"]
  ∧ has_min_mapping amount_column_missing
    = (false, [Msgprint "Please fill: Amount Column"]).
Proof.
  apply (has_min_mapping_amount_missing amount_column_missing);
    reflexivity.
Defined.

(** C6: validation fails exactly when something is missing; when it fails
    the Preview handler stops after the message and sends no request (no
    parse is attempted); and the message names every required field that is
    missing, all of them in one pass: date and description columns in
    either mode, the amount column in amount mode, the credit and the debit
    column in credit/debit mode. *)
Theorem has_min_mapping_reports_all_missing (d : Doc) :
  (fst (has_min_mapping d) = false ↔ missing_fields d ≠ [])
  ∧ (∀ o, fst (has_min_mapping d) = false →
        preview_click d o = snd (has_min_mapping d)
        ∧ preview_data_click d o = snd (has_min_mapping d)
        ∧ existsb is_server_call (preview_click d o) = false
        ∧ existsb is_server_call (preview_data_click d o) = false)
  ∧ (∀ label v, (label, v) ∈ required_fields d →
        truthy_str v = false → label ∈ missing_fields d)
  ∧ missing_fields d =
      labels_of_missing (("Source File", source_file d) :: required_fields d)
  ∧ snd (has_min_mapping d) =
      if fst (has_min_mapping d) then []
      else [Msgprint ("Please fill: " ++ join ", " (missing_fields d))].
Proof.
  split; [|split; [|split; [|split]]].
  - rewrite <- has_min_mapping_fst.
    destruct (fst (has_min_mapping d)); split; congruence.
  - intros o Hfail.
    pose proof (has_min_mapping_no_call d) as Hno.
    unfold preview_click, preview_data_click.
    destruct (has_min_mapping d) as [ok shown]; simpl in *. subst ok.
    simpl. auto.
  - intros label v Hin Hv.
    unfold required_fields in Hin. unfold missing_fields.
    destruct (truthy_int (has_credit_debit_columns d));
      repeat (apply elem_of_cons in Hin as [Heq|Hin];
              [inversion Heq; subst; rewrite Hv; simpl; set_solver|]);
      inversion Hin.
  - unfold missing_fields, required_fields.
    destruct (truthy_int (has_credit_debit_columns d)); simpl;
      rewrite !labels_of_missing_cons; unfold labels_of_missing; simpl;
      rewrite app_nil_r; reflexivity.
  - unfold has_min_mapping. destruct (0 <? _)%nat; reflexivity.
Qed.

End MappingValidator.

(** ** Locks *)

Lemma set_read_only_lookup (v : Z) (ro : gmap string Z) (fn fn' : string) :
  Js.set_read_only v ro fn !! fn' =
    if decide (fn = fn') then (fun _ => v) <$> (ro !! fn') else ro !! fn'.
Proof.
  unfold Js.set_read_only.
  destruct (decide (fn = fn')) as [->|Hne].
  - destruct (ro !! fn') eqn:E.
    + rewrite lookup_insert_eq. reflexivity.
    + rewrite E. reflexivity.
  - destruct (ro !! fn); [rewrite lookup_insert_ne by done|]; reflexivity.
Qed.

Lemma set_read_only_all_lookup (v : Z) (fns : list string)
      (ro : gmap string Z) (fn : string) :
  foldl (Js.set_read_only v) ro fns !! fn =
    if decide (fn ∈ fns) then (fun _ => v) <$> (ro !! fn) else ro !! fn.
Proof.
  revert ro. induction fns as [|x fns IH]; intros ro; simpl.
  - destruct (decide (fn ∈ [])) as [Hin|]; [inversion Hin | reflexivity].
  - rewrite IH, set_read_only_lookup.
    destruct (decide (x = fn)) as [->|Hne].
    + rewrite (decide_True (P := fn ∈ fn :: fns)) by apply list_elem_of_here.
      destruct (decide (fn ∈ fns)); destruct (ro !! fn); reflexivity.
    + destruct (decide (fn ∈ fns)) as [Hin|Hout].
      * rewrite (decide_True (P := fn ∈ x :: fns))
          by (apply list_elem_of_further; exact Hin).
        reflexivity.
      * rewrite (decide_False (P := fn ∈ x :: fns)); [reflexivity|].
        intros [Heq|Hin]%elem_of_cons; [congruence | contradiction].
Qed.

Lemma toLowerCase_status_name (s : Run.Status) :
  Js.toLowerCase (Js.or_empty (Some (Run.status_name s))) =
    match s with
    | Run.Draft => "draft"
    | Run.Parsed => "parsed"
    | Run.Imported => "imported"
    | Run.Failed => "failed"
    end.
Proof. destruct s; reflexivity. Qed.

Lemma frozen_status_name (d : CheckinRun.Doc) (s : Run.Status) :
  CheckinRun.status d = Some (Run.status_name s) →
  CheckinRun.frozen d = Run.is_imported s.
Proof.
  intros Hs. unfold CheckinRun.frozen, CheckinRun.lower_status.
  rewrite Hs, toLowerCase_status_name. destruct s; reflexivity.
Qed.

Lemma is_imported_status_name (d : StatementRun.Doc) (s : Run.Status) :
  StatementRun.status d = Some (Run.status_name s) →
  StatementRun.is_imported d = Run.is_imported s.
Proof.
  intros Hs. unfold StatementRun.is_imported. rewrite Hs.
  destruct s; reflexivity.
Qed.

(** The lock predicate of the Invoice Run form, by status. *)
Lemma invoice_run_lock_parent (i : InvoiceRun.Doc) (s : Run.Status) :
  InvoiceRun.status i = Some (Run.status_name s) →
  InvoiceRun.lockParent i =
    match s with
    | Run.Parsed | Run.Imported => true
    | Run.Draft | Run.Failed => false
    end.
Proof.
  intros Hs. unfold InvoiceRun.lockParent. rewrite Hs.
  destruct s; reflexivity.
Qed.

Lemma enforce_locks_read_only (c : CheckinRun.Form) (fn : string) :
  CheckinRun.read_only (CheckinRun.enforce_locks c) !! fn =
    if decide (fn ∈ CheckinRun.parent_fields_to_lock)
    then (fun _ => if CheckinRun.frozen (CheckinRun.doc c) then 1 else 0)%Z
           <$> (CheckinRun.read_only c !! fn)
    else CheckinRun.read_only c !! fn.
Proof. exact (set_read_only_all_lookup _ _ _ _). Qed.

Lemma enforce_import_lock_read_only (b : StatementRun.Form) (fn : string) :
  StatementRun.read_only (StatementRun.enforce_import_lock b) !! fn =
    if decide (fn ∈ StatementRun.fields_to_lock)
    then (fun _ => if StatementRun.is_imported (StatementRun.doc b)
                   then 1 else 0)%Z
           <$> (StatementRun.read_only b !! fn)
    else StatementRun.read_only b !! fn.
Proof. exact (set_read_only_all_lookup _ _ _ _). Qed.

Lemma lock_parent_fields_read_only (i : InvoiceRun.Form) (fn : string) :
  InvoiceRun.read_only (InvoiceRun.lock_parent_fields i) !! fn =
    if decide (fn ∈ InvoiceRun.parent_fields_to_lock)
    then (fun _ => if negb (InvoiceRun.lockParent (InvoiceRun.doc i))
                   then 0 else 1)%Z
           <$> (InvoiceRun.read_only i !! fn)
    else InvoiceRun.read_only i !! fn.
Proof. exact (set_read_only_all_lookup _ _ _ _). Qed.

(** C2, as stated, fails in three ways.  An Invoice Run locks its parent
    fields as soon as it is Parsed: the lock predicate of its form holds,
    and supplier and duplicate_check_by stop being editable, in a status
    that is not Imported.  An Imported Statement Run keeps its mapping
    columns editable: [enforce_import_lock] governs source_file and the
    lock_mapping_fields switch, not date_column, description_column,
    amount_column, credit_column or debit_column.  And a Checkin Run
    compares its status in lower case, so that its lock predicate also
    holds for the status text IMPORTED. *)
Lemma invoice_run_locked_when_parsed :
  let i :=
    {| InvoiceRun.doc :=
         {| InvoiceRun.name := "IR-0004";
            InvoiceRun.status := Some (Run.status_name Run.Parsed);
            InvoiceRun.source_files :=
              Some [ {| InvoiceRun.row_status := Some "Parsed" |} ];
            InvoiceRun.ready_count := 3 |};
       InvoiceRun.read_only :=
         {[ "supplier" := 0%Z; "duplicate_check_by" := 0%Z ]} |} in
  let b :=
    {| StatementRun.doc :=
         {| StatementRun.name := "SR-0004";
            StatementRun.status := Some "Imported";
            StatementRun.source_file := Some "/private/files/statement.csv";
            StatementRun.date_column := Some "Date";
            StatementRun.description_column := Some "Narration";
            StatementRun.has_credit_debit_columns := 1;
            StatementRun.credit_column := Some "Credit";
            StatementRun.debit_column := Some "Debit";
            StatementRun.amount_column := Some "Amount" |};
       StatementRun.read_only :=
         {[ "source_file" := 0%Z; "date_column" := 0%Z;
            "description_column" := 0%Z; "amount_column" := 0%Z;
            "credit_column" := 0%Z; "debit_column" := 0%Z ]};
       StatementRun.primary_action_visible := Some true |} in
  let c :=
    {| CheckinRun.name := "CR-0007";
       CheckinRun.status := Some "IMPORTED";
       CheckinRun.source_files := Some [] |} in
  (InvoiceRun.lockParent (InvoiceRun.doc i) = true
   ∧ InvoiceRun.read_only (InvoiceRun.lock_parent_fields i) !! "supplier"
       = Some 1%Z
   ∧ InvoiceRun.read_only (InvoiceRun.lock_parent_fields i)
       !! "duplicate_check_by" = Some 1%Z)
  ∧ (StatementRun.is_imported (StatementRun.doc b) = true
     ∧ StatementRun.read_only (StatementRun.enforce_import_lock b)
         !! "source_file" = Some 1%Z
     ∧ ∀ fn, fn ∈ ["date_column"; "description_column"; "amount_column";
                   "credit_column"; "debit_column"] →
         StatementRun.read_only (StatementRun.enforce_import_lock b) !! fn
           = Some 0%Z)
  ∧ (CheckinRun.status c ≠ Some "Imported" ∧ CheckinRun.frozen c = true).
Proof.
  intros i b c. split; [repeat split|]. split.
  - split; [reflexivity|]. split; [vm_compute; reflexivity|].
    intros fn Hin.
    repeat (apply elem_of_cons in Hin as [->|Hin];
            [vm_compute; reflexivity|]).
    inversion Hin.
  - split; [discriminate | reflexivity].
Qed.

(** C2, amended: let [c] be a Checkin Run form, [b] a Statement Run form
    and [i] an Invoice Run form, with any text in the status field.  The
    lock predicate of the Checkin Run holds exactly when the status, put
    in lower case, is [imported]; that of the Statement Run exactly when
    the status is [Imported]; so for the four statuses of a Run both hold
    exactly in Imported, and not in Failed.  After the lock functions
    have run, every field they govern that the form has (cutoff_time and
    log_window_seconds, the file column of the source-file rows;
    bank_account, statement_start, statement_end, source_file and
    lock_mapping_fields) is read-only exactly when the predicate holds,
    the source-file grid refuses adding and deleting rows exactly then,
    and Save is hidden exactly then; otherwise the fields are editable
    and rows can be added and removed.  The lock functions touch no other
    field, the mapping columns of the Statement Run among them, and
    leave the document as it is.  The Invoice Run form locks differently:
    supplier and duplicate_check_by are read-only exactly when the status
    is Parsed or Imported, and editable in Draft and Failed. *)
Theorem locks_by_status
    (c : CheckinRun.Form) (b : StatementRun.Form) (i : InvoiceRun.Form) :
  let c_locked := CheckinRun.frozen (CheckinRun.doc c) in
  let b_locked := StatementRun.is_imported (StatementRun.doc b) in
  let i_locked := InvoiceRun.lockParent (InvoiceRun.doc i) in
  let flag (locked : bool) := (if locked then 1 else 0)%Z in
  (c_locked = true ↔
     ∃ t, CheckinRun.status (CheckinRun.doc c) = Some t
          ∧ Js.toLowerCase t = "imported")
  ∧ (b_locked = true ↔
       StatementRun.status (StatementRun.doc b) = Some "Imported")
  ∧ (i_locked = true ↔
       InvoiceRun.status (InvoiceRun.doc i) = Some "Parsed"
       ∨ InvoiceRun.status (InvoiceRun.doc i) = Some "Imported")
  ∧ (∀ s, CheckinRun.status (CheckinRun.doc c) = Some (Run.status_name s) →
       c_locked = Run.is_imported s ∧ (c_locked = true ↔ s = Run.Imported))
  ∧ (∀ s, StatementRun.status (StatementRun.doc b)
            = Some (Run.status_name s) →
       b_locked = Run.is_imported s ∧ (b_locked = true ↔ s = Run.Imported))
  ∧ (∀ s, InvoiceRun.status (InvoiceRun.doc i) = Some (Run.status_name s) →
       (i_locked = true ↔ s = Run.Parsed ∨ s = Run.Imported))
  ∧ (∀ fn, fn ∈ CheckinRun.parent_fields_to_lock →
       is_Some (CheckinRun.read_only c !! fn) →
       CheckinRun.read_only (CheckinRun.enforce_locks c) !! fn
         = Some (flag c_locked))
  ∧ (∀ g, CheckinRun.grid c = Some g →
       ∃ g', CheckinRun.grid (CheckinRun.enforce_locks c) = Some g'
             ∧ CheckinRun.cannot_add_rows g' = c_locked
             ∧ CheckinRun.cannot_delete_rows g' = c_locked
             ∧ CheckinRun.add_row_visible g' = negb c_locked
             ∧ CheckinRun.remove_rows_visible g' = negb c_locked
             ∧ CheckinRun.clear_controls_visible g' = negb c_locked
             ∧ (is_Some (CheckinRun.file_read_only g) →
                CheckinRun.file_read_only g' = Some (flag c_locked)
                ∧ CheckinRun.clear_clicks_blocked g' = c_locked))
  ∧ (∀ fn, fn ∈ StatementRun.fields_to_lock →
       is_Some (StatementRun.read_only b !! fn) →
       StatementRun.read_only (StatementRun.enforce_import_lock b) !! fn
         = Some (flag b_locked))
  ∧ (is_Some (StatementRun.primary_action_visible b) →
       StatementRun.primary_action_visible (StatementRun.enforce_import_lock b)
         = Some (negb b_locked))
  ∧ (∀ fn, fn ∉ CheckinRun.parent_fields_to_lock →
       CheckinRun.read_only (CheckinRun.enforce_locks c) !! fn
         = CheckinRun.read_only c !! fn)
  ∧ (∀ fn, fn ∉ StatementRun.fields_to_lock →
       StatementRun.read_only (StatementRun.enforce_import_lock b) !! fn
         = StatementRun.read_only b !! fn)
  ∧ (∀ fn, fn ∈ ["date_column"; "description_column"; "amount_column";
                 "credit_column"; "debit_column";
                 "has_credit_debit_columns"] →
       fn ∉ StatementRun.fields_to_lock)
  ∧ CheckinRun.doc (CheckinRun.enforce_locks c) = CheckinRun.doc c
  ∧ StatementRun.doc (StatementRun.enforce_import_lock b) = StatementRun.doc b
  ∧ (∀ fn, fn ∈ InvoiceRun.parent_fields_to_lock →
       is_Some (InvoiceRun.read_only i !! fn) →
       InvoiceRun.read_only (InvoiceRun.lock_parent_fields i) !! fn
         = Some (flag i_locked)).
Proof.
  intros c_locked b_locked i_locked flag.
  split; [|split; [|split; [|split; [|split; [|split]]]]].
  - subst c_locked. unfold CheckinRun.frozen, CheckinRun.lower_status.
    rewrite String.eqb_eq. split.
    + intros Hl. destruct (CheckinRun.status (CheckinRun.doc c)) as [t|] eqn:Ht.
      * exists t. split; [reflexivity|].
        unfold Js.or_empty, Js.or_str in Hl.
        destruct (Js.truthy_str (Some t)) eqn:Htt; [exact Hl|].
        simpl in Hl. discriminate.
      * simpl in Hl. discriminate.
    + intros (t & -> & Ht). unfold Js.or_empty, Js.or_str.
      destruct (Js.truthy_str (Some t)) eqn:Htt; [exact Ht|].
      simpl in Htt. apply negb_false_iff, String.eqb_eq in Htt.
      subst t. simpl in Ht. discriminate.
  - subst b_locked. unfold StatementRun.is_imported.
    apply bool_decide_eq_true.
  - subst i_locked. unfold InvoiceRun.lockParent.
    rewrite bool_decide_eq_true, !elem_of_cons, elem_of_nil. tauto.
  - intros s Hs. pose proof (frozen_status_name _ _ Hs) as Hfr.
    fold c_locked in Hfr. rewrite Hfr.
    split; [reflexivity|]. destruct s; simpl; split; congruence.
  - intros s Hs. pose proof (is_imported_status_name _ _ Hs) as Him.
    fold b_locked in Him. rewrite Him.
    split; [reflexivity|]. destruct s; simpl; split; congruence.
  - intros s Hs. pose proof (invoice_run_lock_parent _ _ Hs) as Hlp.
    fold i_locked in Hlp. rewrite Hlp.
    destruct s; split; auto; try discriminate;
      intros [?|?]; discriminate.
  - repeat split.
    + intros fn Hin [v Hv].
      rewrite enforce_locks_read_only, decide_True by done.
      rewrite Hv. reflexivity.
    + intros g Hg. unfold CheckinRun.enforce_locks. simpl. rewrite Hg.
      eexists. split; [reflexivity|]. simpl.
      do 5 (split; [reflexivity|]).
      intros [v Hv]. rewrite Hv. split; reflexivity.
    + intros fn Hin [v Hv].
      rewrite enforce_import_lock_read_only, decide_True by done.
      rewrite Hv. reflexivity.
    + intros [v Hv]. unfold StatementRun.enforce_import_lock. simpl.
      rewrite Hv. reflexivity.
    + intros fn Hout. rewrite enforce_locks_read_only, decide_False by done.
      reflexivity.
    + intros fn Hout.
      rewrite enforce_import_lock_read_only, decide_False by done.
      reflexivity.
    + intros fn Hin.
      repeat (apply elem_of_cons in Hin as [->|Hin];
              [refine (bool_decide_unpack _ _); vm_compute; exact I|]).
      inversion Hin.
    + intros fn Hin [v Hv].
      rewrite lock_parent_fields_read_only, decide_True by done.
      rewrite Hv. subst flag i_locked. simpl.
      destruct (InvoiceRun.lockParent _); reflexivity.
Qed.

(** ** Which operation is offered in which status *)

Lemma checkin_parse_offered_status (c : CheckinRun.Doc) (s : Run.Status) :
  CheckinRun.status c = Some (Run.status_name s) →
  CheckinRun.parse_offered c =
    match s with
    | Run.Draft | Run.Failed => true
    | Run.Parsed | Run.Imported => false
    end.
Proof.
  intros Hs. unfold CheckinRun.parse_offered, CheckinRun.lower_status.
  rewrite Hs, toLowerCase_status_name. destruct s; reflexivity.
Qed.

Lemma checkin_generate_offered_status (c : CheckinRun.Doc) (s : Run.Status) :
  CheckinRun.status c = Some (Run.status_name s) →
  CheckinRun.generate_offered c =
    match s with
    | Run.Parsed => true
    | _ => false
    end.
Proof.
  intros Hs. unfold CheckinRun.generate_offered, CheckinRun.lower_status.
  rewrite Hs, toLowerCase_status_name. destruct s; reflexivity.
Qed.

Lemma statement_generate_offered_status
    (b : StatementRun.Doc) (s : Run.Status) :
  StatementRun.status b = Some (Run.status_name s) →
  StatementRun.generate_offered b =
    match s with
    | Run.Parsed => true
    | _ => false
    end.
Proof.
  intros Hs.
  unfold StatementRun.generate_offered, StatementRun.add_formatter_buttons.
  rewrite Hs. destruct s; reflexivity.
Qed.

Lemma transition_advances (s s' : Run.Status) (op : Pipeline.Op) :
  Pipeline.transition s op s' →
  Pipeline.rank s < Pipeline.rank s'
  ∨ (s = Run.Failed ∧ op = Pipeline.OpParse ∧ s' = Run.Draft).
Proof.
  unfold Pipeline.transition.
  destruct s, op; simpl; intros Hin;
    repeat (apply elem_of_cons in Hin as [->|Hin]; [simpl; auto with lia|]);
    inversion Hin.
Qed.

(** C3, as stated, fails: an Invoice Run that is already Imported and
    still counts ready rows is offered "Create Purchase Invoices" again,
    so generation is not offered only in Parsed. *)
Lemma invoice_run_offers_generate_when_imported :
  InvoiceRun.generate_offered
    {| InvoiceRun.name := "IR-0001";
       InvoiceRun.status := Some (Run.status_name Run.Imported);
       InvoiceRun.source_files :=
         Some [ {| InvoiceRun.row_status := Some "Parsed" |} ];
       InvoiceRun.ready_count := 2 |} = true.
Proof. reflexivity. Qed.

(** C3, amended: along the transition table every step either advances
    (Draft -> Parsed -> Imported or Failed) or is the step Failed -> Draft
    of an operator's re-parse, and nothing leaves Imported.  A Checkin Run
    offers an operation in a status exactly when the table has a step for
    it there: parse in Draft and Failed, generate in Parsed only.  A
    Statement Run offers generate in Parsed only, writes Imported when the
    request succeeds, and offers its re-parsing Preview in every status.
    An Invoice Run offers parse in Draft or while a source-file row is
    Draft or Error, and generate in Parsed or while ready rows are
    counted. *)
Theorem operations_offered_by_status
    (s : Run.Status)
    (c : CheckinRun.Doc) (b : StatementRun.Doc) (i : InvoiceRun.Doc) :
  CheckinRun.status c = Some (Run.status_name s) →
  StatementRun.status b = Some (Run.status_name s) →
  InvoiceRun.status i = Some (Run.status_name s) →
  (∀ op s', Pipeline.transition s op s' →
            Pipeline.rank s < Pipeline.rank s'
            ∨ (s = Run.Failed ∧ op = Pipeline.OpParse
               ∧ s' = Run.Draft))
  ∧ (s = Run.Imported → ∀ op, Pipeline.successors s op = [])
  ∧ (CheckinRun.parse_offered c = true ↔
       Pipeline.successors s Pipeline.OpParse ≠ [])
  ∧ (CheckinRun.generate_offered c = true ↔
       Pipeline.successors s Pipeline.OpGenerate ≠ [])
  ∧ (CheckinRun.parse_offered c = true ↔
       s = Run.Draft ∨ s = Run.Failed)
  ∧ (CheckinRun.generate_offered c = true ↔ s = Run.Parsed)
  ∧ (StatementRun.generate_offered b = true ↔ s = Run.Parsed)
  ∧ StatementRun.status
      (fst (StatementRun.create_bank_transactions_click b true))
      = Some (Run.status_name Run.Imported)
  ∧ fst (StatementRun.create_bank_transactions_click b false) = b
  ∧ StatementRun.reparse_offered b = true
  ∧ (InvoiceRun.parse_offered i = true ↔
       s = Run.Draft ∨ InvoiceRun.hasDraftOrErrorChild i = true)
  ∧ (InvoiceRun.generate_offered i = true ↔
       s = Run.Parsed ∨ (0 < InvoiceRun.ready_count i)%Z).
Proof.
  intros Hc Hb Hi.
  pose proof (checkin_parse_offered_status _ _ Hc) as Hcp.
  pose proof (checkin_generate_offered_status _ _ Hc) as Hcg.
  pose proof (statement_generate_offered_status _ _ Hb) as Hbg.
  split; [intros op s'; apply transition_advances|].
  split; [intros -> op; destruct op; reflexivity|].
  split; [rewrite Hcp; destruct s; simpl; split; congruence|].
  split; [rewrite Hcg; destruct s; simpl; split; congruence|].
  split.
  { rewrite Hcp. destruct s; simpl; split; auto; try congruence;
      intros [?|?]; congruence. }
  split; [rewrite Hcg; destruct s; simpl; split; congruence|].
  split; [rewrite Hbg; destruct s; simpl; split; congruence|].
  split; [reflexivity|].
  split; [reflexivity|].
  split; [reflexivity|].
  split.
  - unfold InvoiceRun.parse_offered. rewrite Hi, orb_true_iff.
    rewrite bool_decide_eq_true.
    split; (intros [H|H]; [left|right; exact H]);
      destruct s; simpl in *; congruence.
  - unfold InvoiceRun.generate_offered. rewrite Hi, orb_true_iff.
    rewrite bool_decide_eq_true, Z.ltb_lt.
    split.
    + intros [H|H]; [right; exact H | left; destruct s; simpl in *; congruence].
    + intros [H|H]; [right; subst s; reflexivity | left; exact H].
Qed.

(** ** Parsing needs a source file *)

Lemma statement_preview_calls (d : StatementRun.Doc) (o : StatementRun.Outcome) :
  existsb (Js.calls_method "preview_rows") (StatementRun.preview_click d o)
    = fst (StatementRun.has_min_mapping d).
Proof.
  unfold StatementRun.preview_click, StatementRun.has_min_mapping.
  destruct (0 <? _)%nat; reflexivity.
Qed.

Lemma has_min_mapping_source_file (d : StatementRun.Doc) :
  fst (StatementRun.has_min_mapping d) = true →
  Js.truthy_str (StatementRun.source_file d) = true.
Proof.
  rewrite has_min_mapping_fst. unfold StatementRun.missing_fields.
  destruct (Js.truthy_str (StatementRun.source_file d)); simpl;
    [reflexivity | discriminate].
Qed.

(** C7, as stated, fails: the Parse Data button of a Draft Invoice Run
    with no source file is shown, and clicking it sends the parse request
    all the same, followed by a reload. *)
Lemma invoice_run_parse_without_source_file :
  let d := {| InvoiceRun.name := "IR-0002";
              InvoiceRun.status := Some "Draft";
              InvoiceRun.source_files := Some [];
              InvoiceRun.ready_count := 0 |} in
  InvoiceRun.parse_offered d = true
  ∧ InvoiceRun.parse_click d =
      [Js.ServerCall
         "ajc_tools.ajc_tools.doctype.invoice_run.invoice_run.parse_files"
         [("name", Js.AStr "IR-0002")];
       Js.ReloadDoc]
  ∧ existsb Js.is_parse_call (InvoiceRun.parse_click d) = true.
Proof. repeat split. Qed.

(** C7, amended: in both copies of the Checkin Run form, Parse Data on a
    run without source files only shows a message: no request is sent, the
    document is not reloaded, the run stays as it was; the parse request
    is sent exactly when the run has a source file.  A Statement Run sends
    its parse request (preview_rows) exactly when the mapping check passes,
    which needs a source file.  (An Invoice Run sends the request without
    looking at its source files.) *)
Theorem parse_needs_source_file
    (a : CheckinRun.App) (c : CheckinRun.Doc)
    (b : StatementRun.Doc) (o : StatementRun.Outcome) (i : InvoiceRun.Doc) :
  (CheckinRun.no_source_files c = true →
     CheckinRun.parse_click a c =
       [Js.Msgprint "Add at least one source file (in the Source Files table) before parsing."]
     ∧ existsb Js.is_server_call (CheckinRun.parse_click a c) = false
     ∧ existsb Js.is_reload (CheckinRun.parse_click a c) = false)
  ∧ (existsb Js.is_parse_call (CheckinRun.parse_click a c) = true ↔
       ∃ f fs, CheckinRun.source_files c = Some (f :: fs))
  ∧ (existsb (Js.calls_method "preview_rows") (StatementRun.preview_click b o)
       = true ↔ fst (StatementRun.has_min_mapping b) = true)
  ∧ (fst (StatementRun.has_min_mapping b) = true →
       Js.truthy_str (StatementRun.source_file b) = true)
  ∧ existsb Js.is_parse_call (InvoiceRun.parse_click i) = true.
Proof.
  split; [|split; [|split; [|split]]].
  - intros Hno. unfold CheckinRun.parse_click. rewrite Hno. auto.
  - unfold CheckinRun.parse_click, CheckinRun.no_source_files.
    destruct (CheckinRun.source_files c) as [[|f fs]|]; simpl.
    + split; [discriminate | intros (f & fs & H); discriminate].
    + split; [eauto | intros _; destruct a; reflexivity].
    + split; [discriminate | intros (f & fs & H); discriminate].
  - rewrite statement_preview_calls. reflexivity.
  - apply has_min_mapping_source_file.
  - reflexivity.
Qed.

(** ** Preview *)

(** C4, as stated, fails: the Preview button of a Statement Run whose
    mapping is complete sends preview_rows ("re-parse and open dialog",
    under the banner "Parsing statement…") and then reloads the document;
    preview there does re-parse. *)
Lemma statement_preview_reparses :
  let d := {| StatementRun.name := "SR-0003";
              StatementRun.status := Some "Parsed";
              StatementRun.source_file := Some "/private/files/statement.csv";
              StatementRun.date_column := Some "Date";
              StatementRun.description_column := Some "Narration";
              StatementRun.has_credit_debit_columns := 0;
              StatementRun.credit_column := None;
              StatementRun.debit_column := None;
              StatementRun.amount_column := Some "Amount" |} in
  let o := {| StatementRun.call_ok := true; StatementRun.reload_ok := true |} in
  StatementRun.preview_click d o =
    [Js.Freeze "Parsing statement…";
     Js.ServerCall "preview_rows" [("docname", Js.AStr "SR-0003")];
     Js.ReloadDoc;
     Js.ShowDialog "Bank Statement Preview";
     Js.ShowAlert "Preview ready.";
     Js.Unfreeze]
  ∧ existsb Js.is_parse_call (StatementRun.preview_click d o) = true
  ∧ existsb Js.is_reload (StatementRun.preview_click d o) = true.
Proof. repeat split. Qed.

(** C4, amended: in both copies of the Checkin Run form a preview sends
    nothing but the read request cr_preview for the first page (start 0,
    200 rows, descending), or only a message when the run has no source
    file; it sends no parse request, does not reload the document, and
    sends the same request every time it is called.  The Preview of a
    Statement Run re-parses by design: when the mapping check passes it
    sends preview_rows, and reloads the document if that succeeded; when
    the check fails it sends nothing. *)
Theorem preview_requests
    (a : CheckinRun.App) (c : CheckinRun.Doc)
    (b : StatementRun.Doc) (o : StatementRun.Outcome) :
  CheckinRun.preview_click a c =
    (if CheckinRun.no_source_files c
     then [Js.Msgprint "Add at least one source file (in the Source Files table) before previewing."]
     else [Js.ShowDialog "Device Events Overview";
           Js.ServerCall (CheckinRun.method a "cr_preview")
             [("name", Js.AStr (CheckinRun.name c)); ("start", Js.AInt 0);
              ("page_len", Js.AInt 200); ("order", Js.AStr "desc")]])
  ∧ existsb Js.is_parse_call (CheckinRun.preview_click a c) = false
  ∧ existsb Js.is_reload (CheckinRun.preview_click a c) = false
  ∧ (fst (StatementRun.has_min_mapping b) = true →
       existsb Js.is_parse_call (StatementRun.preview_click b o) = true
       ∧ existsb Js.is_reload (StatementRun.preview_click b o)
           = StatementRun.call_ok o)
  ∧ (fst (StatementRun.has_min_mapping b) = true →
       existsb Js.is_parse_call (StatementRun.preview_data_click b o) = true
       ∧ existsb Js.is_reload (StatementRun.preview_data_click b o)
           = StatementRun.call_ok o)
  ∧ (fst (StatementRun.has_min_mapping b) = false →
       existsb Js.is_server_call (StatementRun.preview_click b o) = false
       ∧ existsb Js.is_reload (StatementRun.preview_click b o) = false
       ∧ existsb Js.is_server_call (StatementRun.preview_data_click b o)
           = false
       ∧ existsb Js.is_reload (StatementRun.preview_data_click b o) = false).
Proof.
  split; [reflexivity|].
  split; [|split; [|split; [|split]]].
  - unfold CheckinRun.preview_click.
    destruct (CheckinRun.no_source_files c), a; reflexivity.
  - unfold CheckinRun.preview_click.
    destruct (CheckinRun.no_source_files c); reflexivity.
  - unfold StatementRun.preview_click, StatementRun.has_min_mapping.
    destruct (0 <? _)%nat; simpl; [discriminate|]. intros _.
    destruct (StatementRun.call_ok o), (StatementRun.reload_ok o);
      split; reflexivity.
  - unfold StatementRun.preview_data_click, StatementRun.has_min_mapping.
    destruct (0 <? _)%nat; simpl; [discriminate|]. intros _.
    destruct (StatementRun.call_ok o), (StatementRun.reload_ok o);
      split; reflexivity.
  - unfold StatementRun.preview_click, StatementRun.preview_data_click,
      StatementRun.has_min_mapping.
    destruct (0 <? _)%nat; simpl; [|discriminate]. intros _.
    repeat split; reflexivity.
Qed.

(** ** Credit note of a Sales Return *)

Lemma credit_qty_positive (v : Q) :
  (0 < v)%Q → SalesReturn.credit_qty (Some v) = Some (-1 * v)%Q.
Proof.
  intros Hpos. unfold SalesReturn.credit_qty.
  destruct (Qle_bool v 0) eqn:E; [|reflexivity].
  apply Qle_bool_iff in E. lra.
Qed.

Lemma credit_qty_not_positive (v : Q) :
  ¬ (0 < v)%Q → SalesReturn.credit_qty (Some v) = Some v.
Proof.
  intros Hneg. unfold SalesReturn.credit_qty.
  destruct (Qle_bool v 0) eqn:E; [reflexivity|].
  exfalso. apply Hneg. apply Qnot_le_lt. intros Hle.
  apply Qle_bool_iff in Hle. congruence.
Qed.

Lemma credit_qty_never_positive (q : option Q) :
  ¬ SalesReturn.positive_qty (SalesReturn.credit_qty q).
Proof.
  destruct q as [v|]; simpl; [|tauto].
  destruct (Qle_bool v 0) eqn:E; simpl.
  - apply Qle_bool_iff in E. lra.
  - assert (¬ (v <= 0)%Q) as Hn
      by (intros Hle; apply Qle_bool_iff in Hle; congruence).
    lra.
Qed.

(** C10: every line of the credit note is made from one item row of the
    return; its quantity is the negation of the row's quantity when that
    is positive and the row's quantity itself otherwise, so no line has a
    positive quantity; and the insert request is made exactly when a
    customer is set and the item list is not empty. *)
Theorem credit_note_quantities (d : SalesReturn.Doc) :
  (∀ row v, SalesReturn.qty row = Some v → (0 < v)%Q →
     SalesReturn.line_qty (SalesReturn.invoice_line (SalesReturn.name d) row)
       = Some (-1 * v)%Q
     ∧ (-1 * v == - v)%Q)
  ∧ (∀ row v, SalesReturn.qty row = Some v → ¬ (0 < v)%Q →
     SalesReturn.line_qty (SalesReturn.invoice_line (SalesReturn.name d) row)
       = Some v)
  ∧ (∀ row, SalesReturn.qty row = None →
     SalesReturn.line_qty (SalesReturn.invoice_line (SalesReturn.name d) row)
       = None)
  ∧ (∀ c r lines,
       SalesReturn.create_credit_note_click d
         = SalesReturn.InsertSalesInvoice c r lines →
       SalesReturn.customer d = Some c ∧ c ≠ "" ∧ r = 1%Z
       ∧ ∃ row rows, SalesReturn.items d = Some (row :: rows)
           ∧ lines = SalesReturn.invoice_line (SalesReturn.name d)
                       <$> (row :: rows)
           ∧ Forall (fun l => ¬ SalesReturn.positive_qty (SalesReturn.line_qty l))
                    lines)
  ∧ (∀ c row rows,
       SalesReturn.customer d = Some c → c ≠ "" →
       SalesReturn.items d = Some (row :: rows) →
       SalesReturn.create_credit_note_click d
         = SalesReturn.InsertSalesInvoice c 1
             (SalesReturn.invoice_line (SalesReturn.name d) <$> (row :: rows))).
Proof.
  split; [|split; [|split; [|split]]].
  - intros row v Hq Hpos. simpl. rewrite Hq. split.
    + apply credit_qty_positive, Hpos.
    + ring.
  - intros row v Hq Hneg. simpl. rewrite Hq.
    apply credit_qty_not_positive, Hneg.
  - intros row Hq. simpl. rewrite Hq. reflexivity.
  - intros c r lines. unfold SalesReturn.create_credit_note_click.
    destruct (SalesReturn.customer d) as [c'|]; [|discriminate].
    destruct (SalesReturn.items d) as [rows|]; [|discriminate].
    destruct (Js.truthy_str (Some c')) eqn:Ht; simpl; [|discriminate].
    destruct rows as [|row rows]; simpl; [discriminate|].
    intros Heq. inversion Heq; subst.
    apply truthy_str_Some in Ht.
    repeat split; trivial.
    exists row, rows. repeat split.
    apply Forall_cons. split; [apply credit_qty_never_positive|].
    apply Forall_fmap, Forall_forall. intros x _.
    apply credit_qty_never_positive.
  - intros c row rows Hc Hne Hi.
    unfold SalesReturn.create_credit_note_click. rewrite Hc, Hi.
    apply truthy_str_Some in Hne. rewrite Hne. reflexivity.
Qed.

(** ** Grouped purchase invoice of a Fuel Consumption *)

Section Grouping.
Import Js FuelConsumption.
Import PrimFloat.


Lemma group_amounts_snoc (k : string) (rows : list DetailRow) (row : DetailRow) :
  group_amounts k (rows ++ [row])
  = group_amounts k rows
      ++ (if bool_decide (grouping_key row = Some k)
          then [amount_consumed row] else []).
Proof.
  unfold group_amounts. rewrite filter_app, fmap_app. f_equal.
  rewrite filter_cons, filter_nil.
  case_bool_decide as Hk.
  - rewrite decide_True by exact Hk. reflexivity.
  - rewrite decide_False by exact Hk. reflexivity.
Qed.

Lemma group_amounts_not_nil (k : string) (rows : list DetailRow) :
  group_amounts k rows ≠ [] ↔
  ∃ row, row ∈ rows ∧ grouping_key row = Some k.
Proof.
  unfold group_amounts. induction rows as [|r rows IH].
  - split; [intros H; destruct (H eq_refl) | intros (row & Hin & _); inversion Hin].
  - rewrite filter_cons. destruct (decide (grouping_key r = Some k)) as [Hk|Hk].
    + split; [|discriminate]. intros _. exists r.
      split; [apply list_elem_of_here | exact Hk].
    + rewrite IH. split.
      * intros (row & Hin & Hrow). exists row.
        split; [apply list_elem_of_further, Hin | exact Hrow].
      * intros (row & [->|Hin]%elem_of_cons & Hrow); [contradiction|].
        exists row. split; assumption.
Qed.

Lemma group_row_skips (g : gmap string Value) (row : DetailRow) :
  grouping_key row = None → group_row g row = g.
Proof.
  unfold grouping_key, group_row.
  destruct (row_cost_center row) as [k|]; [|reflexivity].
  destruct (truthy_str (Some k)); [discriminate | reflexivity].
Qed.

Lemma group_row_keyed (g : gmap string Value) (row : DetailRow) (k : string) :
  grouping_key row = Some k →
  group_row g row
  = set k (plus k (get (if negb (truthy_read (get g k))
                        then set k (Num 0%float) g else g) k)
                  (amount_consumed row))
        (if negb (truthy_read (get g k)) then set k (Num 0%float) g else g).
Proof.
  unfold grouping_key, group_row.
  destruct (row_cost_center row) as [k0|]; [|discriminate].
  destruct (truthy_str (Some k0)); [|discriminate].
  intros [= ->]. reflexivity.
Qed.

Lemma set_lookup (k' : string) (v : Value) (g : gmap string Value)
      (k : string) :
  set k' v g !! k
  = if bool_decide (k' = "__proto__") then g !! k
    else if decide (k' = k) then Some v else g !! k.
Proof.
  unfold set. case_bool_decide; [reflexivity|].
  destruct (decide (k' = k)) as [->|Hne].
  - apply lookup_insert_eq.
  - apply lookup_insert_ne, Hne.
Qed.

Lemma set_lookup_ne (k' : string) (v : Value) (g : gmap string Value)
      (k : string) :
  k' ≠ k → set k' v g !! k = g !! k.
Proof.
  intros Hne. rewrite set_lookup, decide_False by exact Hne.
  destruct (bool_decide _); reflexivity.
Qed.

Lemma set_proto (k : string) (v : Value) (g : gmap string Value) :
  k = "__proto__" → set k v g = g.
Proof. intros Hp. unfold set. rewrite (bool_decide_eq_true_2 _ Hp). reflexivity. Qed.

Lemma total_snoc (l : list float) (a x0 : float) :
  foldl add_amount x0 (l ++ [a]) = add_amount (foldl add_amount x0 l) a.
Proof. rewrite foldl_app. reflexivity. Qed.

Lemma add_amount_truthy (t a : float) :
  truthy_float t = true → add_amount t a = (t + a)%float.
Proof. intros H. unfold add_amount. rewrite H. reflexivity. Qed.

Lemma add_amount_falsy (t a : float) :
  truthy_float t = false → add_amount t a = (0 + a)%float.
Proof. intros H. unfold add_amount. rewrite H. reflexivity. Qed.

Lemma group_rows_snoc (rows : list DetailRow) (row : DetailRow) :
  group_rows (rows ++ [row]) = group_row (group_rows rows) row.
Proof. unfold group_rows. rewrite foldl_app. reflexivity. Qed.

(** What the grouping loop has built after the rows [rows]. *)
Lemma group_rows_lookup (rows : list DetailRow) (k : string) :
  group_rows rows !! k
  = match group_amounts k rows with
    | [] => None
    | x :: l =>
        if bool_decide (k = "__proto__") then None
        else if bool_decide (k ∈ object_prototype_keys)
             then Some (Text k (x :: l))
             else Some (Num (foldl add_amount 0%float (x :: l)))
    end.
Proof.
  induction rows as [|row rows IH] using rev_ind.
  - reflexivity.
  - rewrite group_rows_snoc, group_amounts_snoc.
    destruct (grouping_key row) as [k'|] eqn:Hrow.
    2:{ rewrite (group_row_skips _ _ Hrow), IH.
        rewrite (bool_decide_eq_false_2 (None = Some k)) by done.
        rewrite app_nil_r. reflexivity. }
    rewrite (group_row_keyed _ _ _ Hrow).
    destruct (decide (k' = k)) as [->|Hne].
    2:{ rewrite (bool_decide_eq_false_2 (Some k' = Some k)) by congruence.
        rewrite app_nil_r, <- IH.
        rewrite (set_lookup_ne _ _ _ _ Hne).
        destruct (negb _); [apply set_lookup_ne, Hne | reflexivity]. }
    rewrite (bool_decide_eq_true_2 (Some k = Some k)) by reflexivity.
    destruct (decide (k = "__proto__")) as [Hp|Hp].
    { rewrite (set_proto _ _ _ Hp).
      assert (Hg : (if negb (truthy_read (get (group_rows rows) k))
                    then set k (Num 0%float) (group_rows rows)
                    else group_rows rows) = group_rows rows).
      { destruct (negb _); [apply set_proto, Hp | reflexivity]. }
      rewrite Hg, IH.
      destruct (group_amounts k rows); cbn [app];
        rewrite (bool_decide_eq_true_2 _ Hp); reflexivity. }
    unfold get. rewrite !set_lookup.
    rewrite !(bool_decide_eq_false_2 _ Hp), decide_True by reflexivity.
    rewrite IH.
    destruct (group_amounts k rows) as [|x l] eqn:Hl.
    + (* first row of the group *)
      destruct (bool_decide (k ∈ object_prototype_keys)) eqn:Hin;
        cbn [truthy_read negb app].
      * rewrite IH. reflexivity.
      * rewrite set_lookup, (bool_decide_eq_false_2 _ Hp).
        rewrite decide_True by reflexivity. reflexivity.
    + rewrite (bool_decide_eq_false_2 _ Hp).
      destruct (bool_decide (k ∈ object_prototype_keys)) eqn:Hin;
        cbn [truthy_read negb].
      * rewrite IH, ?(bool_decide_eq_false_2 _ Hp), ?Hin. reflexivity.
      * cbn [app].
        rewrite (app_comm_cons l [amount_consumed row] x), total_snoc.
        destruct (truthy_float (foldl add_amount 0%float (x :: l))) eqn:Ht;
          cbn [negb].
        -- rewrite IH, (bool_decide_eq_false_2 _ Hp).
           rewrite (add_amount_truthy _ _ Ht). reflexivity.
        -- rewrite set_lookup, (bool_decide_eq_false_2 _ Hp).
           rewrite decide_True by reflexivity.
           rewrite (add_amount_falsy _ _ Ht). reflexivity.
Qed.

(** The value the loop leaves under a key. *)
Lemma group_rows_Some (rows : list DetailRow) (k : string) (v : Value) :
  group_rows rows !! k = Some v ↔
  (∃ row, row ∈ rows ∧ grouping_key row = Some k)
  ∧ k ≠ "__proto__"
  ∧ v = if bool_decide (k ∈ object_prototype_keys)
        then Text k (group_amounts k rows)
        else Num (group_total k rows).
Proof.
  rewrite group_rows_lookup, <- group_amounts_not_nil. unfold group_total.
  destruct (group_amounts k rows) as [|x l].
  - split; [discriminate | intros (H & _); destruct (H eq_refl)].
  - case_bool_decide as Hp.
    + split; [discriminate | intros (_ & H & _); contradiction].
    + destruct (bool_decide (k ∈ object_prototype_keys)).
      * split; [intros [= <-]; repeat split; done
               | intros (_ & _ & ->); reflexivity].
      * split; [intros [= <-]; repeat split; done
               | intros (_ & _ & ->); reflexivity].
Qed.

Lemma group_rows_None (rows : list DetailRow) (k : string) :
  group_rows rows !! k = None ↔
  (∀ row, row ∈ rows → grouping_key row ≠ Some k) ∨ k = "__proto__".
Proof.
  rewrite group_rows_lookup.
  destruct (group_amounts k rows) as [|x l] eqn:Hl.
  - split; [|reflexivity]. intros _. left. intros row Hin Hrow.
    assert (Hne : group_amounts k rows ≠ []).
    { apply group_amounts_not_nil. exists row. split; assumption. }
    exact (Hne Hl).
  - assert (Hne : group_amounts k rows ≠ []) by (rewrite Hl; discriminate).
    apply group_amounts_not_nil in Hne as (row & Hin & Hrow).
    case_bool_decide as Hp.
    + split; [intros _; right; exact Hp | reflexivity].
    + destruct (bool_decide (k ∈ object_prototype_keys));
        (split; [discriminate | intros [H|H]; [destruct (H row Hin Hrow) | contradiction]]).
Qed.

End Grouping.

Lemma invoice_items_cost_centers
      (docname : string) (g : gmap string FuelConsumption.Value) :
  FuelConsumption.item_cost_center
    <$> FuelConsumption.invoice_items docname g
  = fst <$> map_to_list g.
Proof.
  unfold FuelConsumption.invoice_items.
  rewrite <- list_fmap_compose. reflexivity.
Qed.

Lemma invoice_items_elem
      (docname : string) (g : gmap string FuelConsumption.Value)
      (it : FuelConsumption.InvoiceItem) :
  it ∈ FuelConsumption.invoice_items docname g ↔
  ∃ k v, g !! k = Some v ∧ it = FuelConsumption.make_item docname (k, v).
Proof.
  unfold FuelConsumption.invoice_items. rewrite list_elem_of_fmap. split.
  - intros ([k v] & -> & Hin). exists k, v.
    split; [apply elem_of_map_to_list, Hin | reflexivity].
  - intros (k & v & Hl & ->). exists (k, v).
    split; [reflexivity | apply elem_of_map_to_list, Hl].
Qed.

Lemma invoice_items_cost_center_elem
      (docname : string) (g : gmap string FuelConsumption.Value) (k : string) :
  k ∈ FuelConsumption.item_cost_center
        <$> FuelConsumption.invoice_items docname g
  ↔ is_Some (g !! k).
Proof.
  rewrite invoice_items_cost_centers, list_elem_of_fmap. split.
  - intros ([k' v] & -> & Hin). exists v. apply elem_of_map_to_list, Hin.
  - intros [v Hv]. exists (k, v).
    split; [reflexivity | apply elem_of_map_to_list, Hv].
Qed.


Section InheritedKeys.
Import FuelConsumption.
Import PrimFloat.


End InheritedKeys.

(** ** Generating twice *)

Section Regeneration.
Import Pipeline.
Context {Key Fields : Type} `{EqDecision Key}.
Variable key_le : Key → Key → bool.
Variable store_accepts : Fields → bool.

Local Open Scope nat_scope.

Local Abbreviation Row := (@CanonicalRow Key Fields).
Local Abbreviation Store := (list (@GeneratedRecord Key Fields)).
Local Abbreviation run := (generate_rows store_accepts).














End Regeneration.

(** ** Worked cases *)

(** The spec's scenario: three source rows, two of them resolved to an
    employee, against an empty store.  The first call creates two records
    and skips one row; the second creates none and finds both. *)
Example generate_three_rows :
  let accepts := fun f : string => negb (String.eqb f "") in
  let rows :=
    [ {| Pipeline.natural_key := "EMP-0002@2025-05-01 08:03:10";
         Pipeline.fields := "EMP-0002"; Pipeline.ready := true |};
      {| Pipeline.natural_key := "EMP-0001@2025-05-01 08:00:00";
         Pipeline.fields := "EMP-0001"; Pipeline.ready := true |};
      {| Pipeline.natural_key := "@2025-05-01 08:05:00";
         Pipeline.fields := ""; Pipeline.ready := false |} ] in
  let first := Pipeline.generate String.leb accepts rows [] in
  let second := Pipeline.generate String.leb accepts rows (snd first) in
  (Pipeline.created (fst first), Pipeline.skipped (fst first),
   Pipeline.already_exists (fst first)) = (2, 1, 0)%nat
  ∧ (Pipeline.created (fst second), Pipeline.already_exists (fst second),
     Pipeline.skipped (fst second)) = (0, 2, 1)%nat.
Proof. split; reflexivity. Qed.


(** An imported run in each form: every governed field is read-only and
    the grid takes no new row and gives none up. *)
Example locks_of_imported_runs :
  let c :=
    {| CheckinRun.doc :=
         {| CheckinRun.name := "CR-0001";
            CheckinRun.status := Some "Imported";
            CheckinRun.source_files :=
              Some [ {| CheckinRun.file := Some "/private/files/events.csv";
                        CheckinRun.row_status := Some "Parsed" |} ] |};
       CheckinRun.read_only :=
         {[ "cutoff_time" := 0%Z; "log_window_seconds" := 0%Z;
            "status" := 1%Z ]};
       CheckinRun.grid :=
         Some {| CheckinRun.cannot_add_rows := false;
                 CheckinRun.cannot_delete_rows := false;
                 CheckinRun.add_row_visible := true;
                 CheckinRun.remove_rows_visible := true;
                 CheckinRun.file_read_only := Some 0%Z;
                 CheckinRun.clear_controls_visible := true;
                 CheckinRun.clear_clicks_blocked := false |} |} in
  let b :=
    {| StatementRun.doc :=
         {| StatementRun.name := "SR-0004";
            StatementRun.status := Some "Imported";
            StatementRun.source_file := Some "/private/files/statement.csv";
            StatementRun.date_column := Some "Date";
            StatementRun.description_column := Some "Narration";
            StatementRun.has_credit_debit_columns := 0;
            StatementRun.credit_column := None;
            StatementRun.debit_column := None;
            StatementRun.amount_column := Some "Amount" |};
       StatementRun.read_only :=
         {[ "bank_account" := 0%Z; "source_file" := 0%Z;
            "lock_mapping_fields" := 0%Z ]};
       StatementRun.primary_action_visible := Some true |} in
  let i :=
    {| InvoiceRun.doc :=
         {| InvoiceRun.name := "IR-0005";
            InvoiceRun.status := Some "Imported";
            InvoiceRun.source_files := Some [];
            InvoiceRun.ready_count := 0 |};
       InvoiceRun.read_only := {[ "supplier" := 0%Z ]} |} in
  CheckinRun.read_only (CheckinRun.enforce_locks c) !! "cutoff_time"
    = Some 1%Z
  ∧ (∃ g', CheckinRun.grid (CheckinRun.enforce_locks c) = Some g'
           ∧ CheckinRun.cannot_add_rows g' = true
           ∧ CheckinRun.cannot_delete_rows g' = true)
  ∧ StatementRun.read_only (StatementRun.enforce_import_lock b)
      !! "source_file" = Some 1%Z
  ∧ StatementRun.primary_action_visible (StatementRun.enforce_import_lock b)
      = Some false.
Proof.
  intros c b i.
  split; [vm_compute; reflexivity|].
  split; [eexists; repeat split|].
  split; vm_compute; reflexivity.
Qed.

(** A Failed run in each of the three forms: parse is offered, generate is
    not, unless the Invoice Run still counts ready rows. *)
Lemma operations_offered_by_status_witness :
  let c := {| CheckinRun.name := "CR-0002";
              CheckinRun.status := Some "Failed";
              CheckinRun.source_files := Some [] |} in
  let b := {| StatementRun.name := "SR-0005";
              StatementRun.status := Some "Failed";
              StatementRun.source_file := None;
              StatementRun.date_column := None;
              StatementRun.description_column := None;
              StatementRun.has_credit_debit_columns := 0;
              StatementRun.credit_column := None;
              StatementRun.debit_column := None;
              StatementRun.amount_column := None |} in
  let i := {| InvoiceRun.name := "IR-0003";
              InvoiceRun.status := Some "Failed";
              InvoiceRun.source_files := Some [];
              InvoiceRun.ready_count := 4 |} in
  CheckinRun.parse_offered c = true
  ∧ ¬ CheckinRun.generate_offered c = true
  ∧ ¬ StatementRun.generate_offered b = true
  ∧ InvoiceRun.generate_offered i = true.
Proof.
  intros c b i.
  destruct (operations_offered_by_status Run.Failed c b i
              eq_refl eq_refl eq_refl)
    as (_ & _ & _ & _ & Hcp & Hcg & Hbg & _ & _ & _ & _ & Hig).
  split; [apply Hcp; right; reflexivity|].
  split; [intros H; apply Hcg in H; discriminate|].
  split; [intros H; apply Hbg in H; discriminate|].
  apply Hig. right. reflexivity.
Defined.

Section FuelExample.
Import PrimFloat.

(** Two rows under the primary cost centre, one under the shared one, one
    under none. *)
Example purchase_invoice_of_four_rows :
  let d :=
    {| FuelConsumption.name := "FC-0001";
       FuelConsumption.fuel_consumption_details :=
         Some [ {| FuelConsumption.cost_center := Some "Main - C";
                   FuelConsumption.shared_use_cost_center := Some "Shared - C";
                   FuelConsumption.amount_consumed := 10%float |};
                {| FuelConsumption.cost_center := None;
                   FuelConsumption.shared_use_cost_center := Some "Shared - C";
                   FuelConsumption.amount_consumed := 5%float |};
                {| FuelConsumption.cost_center := Some "";
                   FuelConsumption.shared_use_cost_center := None;
                   FuelConsumption.amount_consumed := 3%float |};
                {| FuelConsumption.cost_center := Some "Main - C";
                   FuelConsumption.shared_use_cost_center := None;
                   FuelConsumption.amount_consumed := 2.5%float |} ] |} in
  ∃ items,
    FuelConsumption.create_purchase_invoice d
      = FuelConsumption.InsertPurchaseInvoice "S0026" items
    ∧ items ≡ₚ
      [ {| FuelConsumption.item_code := "NS-00106";
           FuelConsumption.qty := 1;
           FuelConsumption.rate := FuelConsumption.Num 12.5%float;
           FuelConsumption.amount := FuelConsumption.Num 12.5%float;
           FuelConsumption.item_cost_center := "Main - C";
           FuelConsumption.custom_fuel_consumption := "FC-0001" |};
        {| FuelConsumption.item_code := "NS-00106";
           FuelConsumption.qty := 1;
           FuelConsumption.rate := FuelConsumption.Num 5%float;
           FuelConsumption.amount := FuelConsumption.Num 5%float;
           FuelConsumption.item_cost_center := "Shared - C";
           FuelConsumption.custom_fuel_consumption := "FC-0001" |} ].
Proof.
  eexists. split; [vm_compute; reflexivity|].
  apply Permutation_swap.
Qed.

End FuelExample.

(** A return of three of A and an already negative line of B. *)
Example credit_note_of_two_rows :
  SalesReturn.create_credit_note_click
    {| SalesReturn.name := "SRN-0001";
       SalesReturn.customer := Some "CUST-0001";
       SalesReturn.items :=
         Some [ {| SalesReturn.item_code := Some "A";
                   SalesReturn.qty := Some 3%Q;
                   SalesReturn.batch_no := None |};
                {| SalesReturn.item_code := Some "B";
                   SalesReturn.qty := Some (-2)%Q;
                   SalesReturn.batch_no := Some "B-01" |} ] |}
  = SalesReturn.InsertSalesInvoice "CUST-0001" 1
      [ {| SalesReturn.line_item_code := Some "A";
           SalesReturn.line_qty := Some (-3)%Q;
           SalesReturn.line_batch_no := None;
           SalesReturn.custom_sales_return := "SRN-0001" |};
        {| SalesReturn.line_item_code := Some "B";
           SalesReturn.line_qty := Some (-2)%Q;
           SalesReturn.line_batch_no := Some "B-01";
           SalesReturn.custom_sales_return := "SRN-0001" |} ].
Proof. reflexivity. Qed.

(** ** Stripping tags *)

Section StripHtml.
Import Text.

Lemma remove_tags_contains_gt (inside : bool) (s : string) :
  contains_gt (remove_tags inside s) = true → contains_gt s = true.
Proof.
  revert inside. induction s as [|c r IH]; intros inside; simpl; [done|].
  destruct inside.
  - destruct (is_gt c); simpl.
    + intros _. reflexivity.
    + intros H. rewrite (IH _ H). reflexivity.
  - destruct (is_lt c && contains_gt r) eqn:E; simpl.
    + intros H. rewrite (IH _ H). apply orb_true_r.
    + intros [H|H]%orb_true_iff; [rewrite H; reflexivity|].
      rewrite (IH _ H). apply orb_true_r.
Qed.

Lemma remove_tags_has_tag (inside : bool) (s : string) :
  has_tag (remove_tags inside s) = false.
Proof.
  revert inside. induction s as [|c r IH]; intros inside; simpl; [done|].
  destruct inside.
  - destruct (is_gt c); apply IH.
  - destruct (is_lt c && contains_gt r) eqn:E; [apply IH|].
    simpl. rewrite IH, orb_false_r.
    destruct (is_lt c); [|reflexivity]. simpl in *.
    destruct (contains_gt (remove_tags false r)) eqn:G; [|reflexivity].
    apply remove_tags_contains_gt in G. congruence.
Qed.

Lemma remove_tags_without_tag (s : string) :
  has_tag s = false → remove_tags false s = s.
Proof.
  induction s as [|c r IH]; simpl; [done|].
  intros [E H]%orb_false_iff. rewrite E, (IH H). reflexivity.
Qed.

Lemma remove_tags_fixed (s : string) :
  remove_tags false s = s → has_tag s = false.
Proof. intros H. rewrite <- H. apply remove_tags_has_tag. Qed.

Lemma stripHtml_Some (s : string) :
  stripHtml (Some s) = remove_tags false s.
Proof.
  unfold stripHtml, Js.truthy_str.
  destruct (String.eqb_spec s ""); subst; reflexivity.
Qed.

Lemma remove_tags_inside (b c : string) :
  contains_gt b = false →
  remove_tags true (b ++ String ">" c)%string = remove_tags false c.
Proof.
  induction b as [|x b IH]; simpl; [done|].
  intros [E H]%orb_false_iff. rewrite E. apply IH, H.
Qed.

Lemma contains_gt_app (b c : string) :
  contains_gt (b ++ String ">" c)%string = true.
Proof.
  induction b as [|x b IH]; simpl; [reflexivity|].
  rewrite IH. apply orb_true_r.
Qed.

(** The text that [stripHtml] returns holds no tag any more: in it no [<]
    is followed, anywhere, by a [>]. *)
Theorem stripHtml_leaves_no_tag (html : option string) :
  has_tag (stripHtml html) = false.
Proof.
  destruct html as [s|]; [|reflexivity].
  rewrite stripHtml_Some. apply remove_tags_has_tag.
Qed.

(** [stripHtml] returns its argument unchanged exactly when the argument
    holds no tag; stripping a second time therefore changes nothing. *)
Theorem stripHtml_fixed_point (s : string) :
  (stripHtml (Some s) = s ↔ has_tag s = false)
  ∧ stripHtml (Some (stripHtml (Some s))) = stripHtml (Some s).
Proof.
  rewrite !stripHtml_Some. split.
  - split; [apply remove_tags_fixed | apply remove_tags_without_tag].
  - apply remove_tags_without_tag, remove_tags_has_tag.
Qed.

(** Text before the first tag is kept as it is, the tag goes, and the
    rest is stripped in the same way: for [a] without [<] and [b]
    without [>], stripping [a<b>c] gives [a] followed by the stripped
    [c]. *)
Theorem stripHtml_first_tag (a b c : string) :
  contains_lt a = false →
  contains_gt b = false →
  stripHtml (Some (a ++ String "<" (b ++ String ">" c))%string)
    = (a ++ stripHtml (Some c))%string.
Proof.
  intros Ha Hb. rewrite !stripHtml_Some.
  induction a as [|x a IH]; simpl.
  - rewrite contains_gt_app. simpl. apply remove_tags_inside, Hb.
  - simpl in Ha. apply orb_false_iff in Ha as [E Ha].
    rewrite E. simpl. rewrite (IH Ha). reflexivity.
Qed.

Lemma stripHtml_first_tag_witness :
  stripHtml (Some ("Paid " ++ String "<" ("b" ++ String ">" "in full</b>"))%string)
    = ("Paid " ++ stripHtml (Some "in full</b>"))%string.
Proof. apply stripHtml_first_tag; reflexivity. Defined.

End StripHtml.

(** ** Scanning barcodes into a Sales Return *)

Section Scanning.
Import BarcodeScan.

Abbreviation codes := (fmap (M := list) item_code).

Lemma bump_None (code : string) (rows : list Row) :
  bump code rows = None ↔ Some code ∉ codes rows.
Proof.
  induction rows as [|r rows IH]; simpl.
  - split; [intros _ H; inversion H | reflexivity].
  - rewrite not_elem_of_cons. case_bool_decide as E.
    + split; [discriminate | intros [H _]; congruence].
    + destruct (bump code rows) eqn:B.
      * split; [discriminate|]. intros [_ H]. apply IH in H. discriminate.
      * split; [|reflexivity]. intros _. split; [congruence|].
        apply IH. reflexivity.
Qed.

Lemma bump_codes (code : string) (rows rows' : list Row) :
  bump code rows = Some rows' → codes rows' = codes rows.
Proof.
  revert rows'. induction rows as [|r rows IH]; intros rows'; simpl;
    [discriminate|].
  case_bool_decide as E.
  - intros [= <-]. reflexivity.
  - destruct (bump code rows) as [rest|]; [|discriminate].
    intros [= <-]. rewrite !fmap_cons, (IH rest eq_refl). reflexivity.
Qed.

Lemma bump_other (code other : string) (rows rows' : list Row) :
  other ≠ code → bump code rows = Some rows' →
  rows_of other rows' = rows_of other rows.
Proof.
  intros Hne. unfold rows_of.
  revert rows'. induction rows as [|r rows IH]; intros rows'; simpl;
    [discriminate|].
  case_bool_decide as E.
  - intros [= <-]. rewrite !filter_cons. simpl.
    rewrite !decide_False by congruence. reflexivity.
  - destruct (bump code rows) as [rest|]; [|discriminate].
    intros [= <-]. rewrite !filter_cons, (IH rest eq_refl). reflexivity.
Qed.

Lemma bump_total (code : string) (rows rows' : list Row) (t : Q) :
  bump code rows = Some rows' → total_qty rows = Some t →
  ∃ t', total_qty rows' = Some t' ∧ (t' == t + 1)%Q.
Proof.
  revert rows' t. induction rows as [|r rows IH]; intros rows' t; simpl;
    [discriminate|].
  case_bool_decide as E.
  - intros [= <-]. simpl.
    destruct (qty r) as [| |v|]; try discriminate.
    destruct (total_qty rows) as [u|]; [|discriminate].
    intros [= <-]. simpl. eexists. split; [reflexivity|]. ring.
  - destruct (bump code rows) as [rest|]; [|discriminate].
    intros [= <-]. simpl.
    destruct (qty r) as [| |v|]; try discriminate.
    destruct (total_qty rows) as [u|]; [|discriminate].
    intros [= <-].
    destruct (IH rest u eq_refl eq_refl) as (u' & -> & Hu).
    eexists. split; [reflexivity|]. rewrite Hu. ring.
Qed.

Lemma total_qty_snoc (rows : list Row) (r : Row) (t v : Q) :
  total_qty rows = Some t → qty r = QtyNum v →
  ∃ t', total_qty (rows ++ [r]) = Some t' ∧ (t' == t + v)%Q.
Proof.
  intros Ht Hr. revert t Ht.
  induction rows as [|x rows IH]; intros t; simpl.
  - intros [= <-]. rewrite Hr. eexists. split; [reflexivity|]. ring.
  - destruct (qty x) as [| |w|]; try discriminate.
    destruct (total_qty rows) as [u|]; [|discriminate].
    intros [= <-]. destruct (IH u eq_refl) as (u' & -> & Hu).
    eexists. split; [reflexivity|]. rewrite Hu. ring.
Qed.

Lemma bump_snoc (code : string) (rows : list Row) (r : Row) :
  Some code ∉ codes rows → item_code r = Some code →
  bump code (rows ++ [r]) = Some (rows ++ [set_qty r (add_one (qty r))]).
Proof.
  intros Hout Hr. induction rows as [|x rows IH]; simpl.
  - rewrite bool_decide_eq_true_2 by exact Hr. reflexivity.
  - simpl in Hout. apply not_elem_of_cons in Hout as [Hx Hout].
    rewrite bool_decide_eq_false_2 by congruence.
    rewrite (IH Hout). reflexivity.
Qed.

Lemma rows_of_absent (code : string) (rows : list Row) :
  Some code ∉ codes rows → rows_of code rows = [].
Proof.
  unfold rows_of. induction rows as [|x rows IH]; simpl; [done|].
  intros [Hx Hout]%not_elem_of_cons.
  rewrite filter_cons, decide_False by congruence. apply IH, Hout.
Qed.

Lemma bump_first (code : string) (rows rows' : list Row) :
  bump code rows = Some rows' →
  ∃ pre r post,
    rows = pre ++ (r :: post)
    ∧ item_code r = Some code
    ∧ (Some code ∉ codes pre)
    ∧ rows' = pre ++ (set_qty r (add_one (qty r)) :: post).
Proof.
  revert rows'. induction rows as [|r rest IH]; intros rows'; simpl;
    [discriminate|].
  case_bool_decide as Hr.
  - intros [= <-]. exists [], r, rest.
    split; [reflexivity|]. split; [exact Hr|].
    split; [apply not_elem_of_nil | reflexivity].
  - destruct (bump code rest) as [rest'|]; [|discriminate].
    intros [= <-].
    destruct (IH rest' eq_refl) as (pre & r0 & post & -> & Hc & Hpre & ->).
    exists (r :: pre), r0, post.
    split; [reflexivity|]. split; [exact Hc|].
    split; [|reflexivity].
    rewrite fmap_cons. apply not_elem_of_cons. split; [congruence | exact Hpre].
Qed.

(** What a found item does to the rows.  When the item is already listed,
    its first row, and no other, gets its quantity raised by [+= 1], in
    place: the rows before it and after it, the item codes and the batch
    of that row stay, and no row is added.  An item not yet listed gets
    one new row of quantity 1 at the end.  Either way the item is listed
    afterwards, the rows of every other item are exactly as before, and
    rows that listed each item once still list each item once. *)
Theorem add_scanned_rows (code : string) (rows : list Row) :
  let rows' := add_scanned code rows in
  (Some code ∈ codes rows →
     codes rows' = codes rows
     ∧ ∃ pre r post,
         rows = pre ++ (r :: post)
         ∧ item_code r = Some code
         ∧ (Some code ∉ codes pre)
         ∧ rows' = pre ++ ({| item_code := item_code r;
                              qty := add_one (qty r);
                              batch_no := batch_no r |} :: post))
  ∧ (Some code ∉ codes rows → rows' = rows ++ [new_row code])
  ∧ Some code ∈ codes rows'
  ∧ (∀ other, other ≠ code → rows_of other rows' = rows_of other rows)
  ∧ (NoDup (codes rows) → NoDup (codes rows')).
Proof.
  intros rows'. subst rows'. unfold add_scanned.
  destruct (bump code rows) as [rs|] eqn:B.
  - assert (Some code ∈ codes rows) as Hin.
    { destruct (decide (Some code ∈ codes rows)) as [|Hout]; [done|].
      apply bump_None in Hout. congruence. }
    pose proof (bump_codes _ _ _ B) as Hc.
    split; [intros _; split; [exact Hc | exact (bump_first _ _ _ B)]|].
    split; [intros Hout; contradiction|].
    split; [rewrite Hc; exact Hin|].
    split; [intros other Hne; exact (bump_other _ _ _ _ Hne B)|].
    rewrite Hc. auto.
  - apply bump_None in B.
    split; [intros Hin; contradiction|].
    split; [reflexivity|].
    split; [rewrite fmap_app; apply elem_of_app; right; apply list_elem_of_here|].
    split.
    + intros other Hne. unfold rows_of. rewrite filter_app, filter_cons.
      simpl. rewrite decide_False by congruence. apply app_nil_r.
    + intros Hnd. rewrite fmap_app. apply NoDup_app.
      split; [exact Hnd|]. split; [|apply NoDup_singleton].
      intros x Hx Hx'. apply list_elem_of_singleton in Hx' as ->.
      contradiction.
Qed.

(** A found item raises the total quantity of the return by exactly one,
    whether the item was listed or not, provided every quantity in the
    rows is a number and the quantities of the rows of that item are
    whole numbers below 2^53 in size, for which [+= 1] is exact in
    doubles. *)
Theorem add_scanned_total (code : string) (rows : list Row) (t : Q) :
  total_qty rows = Some t →
  (∀ r, r ∈ rows → item_code r = Some code →
        adds_one_exactly (qty r) = true) →
  ∃ t', total_qty (add_scanned code rows) = Some t' ∧ (t' == t + 1)%Q.
Proof.
  intros Ht _. unfold add_scanned.
  destruct (bump code rows) as [rs|] eqn:B.
  - exact (bump_total _ _ _ _ B Ht).
  - exact (total_qty_snoc rows (new_row code) t 1 Ht eq_refl).
Qed.

Lemma add_scanned_total_witness :
  ∃ t', total_qty (add_scanned "ITEM-002"
                     [ {| item_code := Some "ITEM-001"; qty := QtyNum 2;
                          batch_no := None |};
                       {| item_code := Some "ITEM-002"; qty := QtyNum 3;
                          batch_no := Some "B-7" |} ]) = Some t'
        ∧ (t' == 5 + 1)%Q.
Proof.
  destruct (add_scanned_total "ITEM-002"
              [ {| item_code := Some "ITEM-001"; qty := QtyNum 2;
                   batch_no := None |};
                {| item_code := Some "ITEM-002"; qty := QtyNum 3;
                   batch_no := Some "B-7" |} ] (2 + (3 + 0))%Q eq_refl)
    as (t' & Ht & Heq).
  - intros r Hin Hcode.
    apply elem_of_cons in Hin as [->|Hin]; [discriminate|].
    apply list_elem_of_singleton in Hin as ->. reflexivity.
  - exists t'. split; [exact Ht|]. rewrite Heq. reflexivity.
Defined.

(** Scanning an item that is not listed yet [n + 1] times in a row leaves
    exactly one row of it, at the end of the rows there were, and its
    quantity is [n + 1]. *)
Theorem add_scanned_repeatedly (code : string) (rows : list Row) (n : nat) :
  Some code ∉ codes rows →
  ∃ q, Nat.iter (S n) (add_scanned code) rows
         = rows ++ [ {| item_code := Some code; qty := QtyNum q;
                        batch_no := None |} ]
       ∧ (q == inject_Z (Z.of_nat (S n)))%Q
       ∧ rows_of code (Nat.iter (S n) (add_scanned code) rows)
         = [ {| item_code := Some code; qty := QtyNum q; batch_no := None |} ].
Proof.
  intros Hout.
  assert (∃ q, Nat.iter (S n) (add_scanned code) rows
                 = rows ++ [ {| item_code := Some code; qty := QtyNum q;
                                batch_no := None |} ]
               ∧ (q == inject_Z (Z.of_nat (S n)))%Q) as (q & Hq & Heq).
  { induction n as [|n (q & Hq & Heq)].
    - exists 1%Q. split; [|reflexivity]. simpl. unfold add_scanned.
      apply bump_None in Hout. rewrite Hout. reflexivity.
    - exists (q + 1)%Q. split.
      + change (Nat.iter (S (S n)) (add_scanned code) rows)
          with (add_scanned code (Nat.iter (S n) (add_scanned code) rows)).
        rewrite Hq. unfold add_scanned.
        rewrite (bump_snoc code rows
                   {| item_code := Some code; qty := QtyNum q;
                      batch_no := None |} Hout eq_refl).
        reflexivity.
      + rewrite Heq, (Nat2Z.inj_succ (S n)). unfold Z.succ.
        rewrite inject_Z_plus. reflexivity. }
  exists q. split; [exact Hq|]. split; [exact Heq|].
  rewrite Hq. unfold rows_of. rewrite filter_app, filter_cons. simpl.
  rewrite decide_True by reflexivity.
  fold (rows_of code rows). rewrite (rows_of_absent _ _ Hout). reflexivity.
Qed.

Lemma add_scanned_repeatedly_witness :
  ∃ q, Nat.iter 3 (add_scanned "ITEM-009")
         [ {| item_code := Some "ITEM-001"; qty := QtyNum 2;
              batch_no := None |} ]
       = [ {| item_code := Some "ITEM-001"; qty := QtyNum 2;
              batch_no := None |};
           {| item_code := Some "ITEM-009"; qty := QtyNum q;
              batch_no := None |} ]
     ∧ (q == 3)%Q.
Proof.
  destruct (add_scanned_repeatedly "ITEM-009"
              [ {| item_code := Some "ITEM-001"; qty := QtyNum 2;
                   batch_no := None |} ] 2) as (q & Hq & Heq & _).
  - intros [H|H]%elem_of_cons; [discriminate | inversion H].
  - exists q. split; [exact Hq | exact Heq].
Defined.

End Scanning.

(** Every path of the scan that clears the scan field, and so fires the
    field's handler once more, ends there: the handler then sees an empty
    field, sends nothing and changes nothing.  The rows change only when
    an item was found. *)
Theorem scan_field_cleared_quietly (f : BarcodeScan.Form) :
  (∀ message,
     match BarcodeScan.on_response f message with
     | Some (f', effects) =>
         BarcodeScan.scan_barcode_changed f' = (f', [])
         ∧ existsb Js.is_server_call effects = false
         ∧ (Js.truthy_str message = false →
            BarcodeScan.items f' = BarcodeScan.items f)
     | None =>
         Js.truthy_str message = true ∧ BarcodeScan.items f = None
     end)
  ∧ BarcodeScan.scan_barcode_changed (fst (BarcodeScan.on_error f))
      = (fst (BarcodeScan.on_error f), [])
  ∧ BarcodeScan.items (fst (BarcodeScan.on_error f)) = BarcodeScan.items f
  ∧ (existsb Js.is_server_call (snd (BarcodeScan.scan_barcode_changed f))
       = false →
     BarcodeScan.scan_barcode_changed
       (fst (BarcodeScan.scan_barcode_changed f))
       = (fst (BarcodeScan.scan_barcode_changed f), [])
     ∧ BarcodeScan.items (fst (BarcodeScan.scan_barcode_changed f))
       = BarcodeScan.items f).
Proof.
  split; [|split; [|split]].
  - intros message. unfold BarcodeScan.on_response.
    destruct (Js.truthy_str message) eqn:Hm.
    + destruct message as [code|]; [|discriminate].
      destruct (BarcodeScan.items f) as [rows|]; [|split; reflexivity].
      repeat split. discriminate.
    + repeat split.
  - reflexivity.
  - reflexivity.
  - unfold BarcodeScan.scan_barcode_changed.
    destruct (Js.truthy_str (BarcodeScan.scan_barcode f)) eqn:Hs; simpl.
    + destruct (String.eqb _ ""); simpl; [split; reflexivity | discriminate].
    + intros _. rewrite Hs. split; reflexivity.
Qed.

(** ** Buttons of a Checkin Run *)

Lemma lower_status_parsed_not_results (d : CheckinRun.Doc) :
  CheckinRun.status d = Some "Imported" ∨ CheckinRun.status d = Some "Failed" →
  CheckinRun.generate_offered d = false.
Proof.
  unfold CheckinRun.generate_offered, CheckinRun.lower_status.
  intros [-> | ->]; reflexivity.
Qed.

(** Whatever text the status field holds, the form never shows Create
    Employee Checkins together with Parse Data, nor together with View
    Employee Checkins; Parse Data and View Employee Checkins appear
    together exactly on a saved run whose status is 'Failed'. *)
Theorem checkin_buttons_exclusive (is_new : bool) (d : CheckinRun.Doc) :
  CheckinRun.generate_offered d && CheckinRun.parse_offered d = false
  ∧ CheckinRun.generate_offered d && CheckinList.view_offered is_new d
      = false
  ∧ (CheckinRun.parse_offered d && CheckinList.view_offered is_new d = true
     ↔ is_new = false ∧ CheckinRun.status d = Some "Failed").
Proof.
  split; [|split].
  - unfold CheckinRun.generate_offered, CheckinRun.parse_offered.
    destruct (String.eqb_spec (CheckinRun.lower_status d) "parsed") as [->|];
      reflexivity.
  - unfold CheckinList.view_offered.
    destruct is_new; simpl; [apply andb_false_r|].
    case_bool_decide as E1; simpl.
    + rewrite lower_status_parsed_not_results by auto. reflexivity.
    + case_bool_decide as E2; simpl; [|apply andb_false_r].
      rewrite lower_status_parsed_not_results by auto. reflexivity.
  - unfold CheckinList.view_offered. split.
    + intros [Hp [Hn Hv]%andb_true_iff]%andb_true_iff.
      apply negb_true_iff in Hn. split; [exact Hn|].
      apply orb_true_iff in Hv as [Hv|Hv]; apply bool_decide_eq_true in Hv;
        [|exact Hv].
      exfalso. revert Hp. unfold CheckinRun.parse_offered,
        CheckinRun.lower_status. rewrite Hv. discriminate.
    + intros [-> Hs].
      unfold CheckinRun.parse_offered, CheckinRun.lower_status.
      rewrite Hs. reflexivity.
Qed.

(** ** Waiting for the list *)

Lemma attempt_never_gives_up (ready : nat → bool) (attempts tick fuel : nat) :
  (0 < attempts)%nat →
  ∀ t, CheckinList.attempt ready attempts tick fuel ≠ CheckinList.GaveUp t.
Proof.
  intros Hpos. revert tick. induction fuel as [|fuel IH]; intros tick t;
    simpl; [discriminate|].
  destruct (ready tick); [discriminate|].
  destruct (Nat.ltb_spec 0 attempts); [apply IH | lia].
Qed.

Lemma attempt_applies_at (ready : nat → bool) (attempts tick n fuel : nat) :
  (0 < attempts)%nat →
  (∀ i, (i < n)%nat → ready (tick + i)%nat = false) →
  ready (tick + n)%nat = true →
  (n < fuel)%nat →
  CheckinList.attempt ready attempts tick fuel
    = CheckinList.Applied (tick + n)
        [CheckinList.ClearFilters; CheckinList.ApplyFn; CheckinList.Apply].
Proof.
  intros Hpos. revert tick fuel.
  induction n as [|n IH]; intros tick fuel Hwait Hready Hfuel;
    (destruct fuel as [|fuel]; [lia|]); simpl.
  - rewrite Nat.add_0_r in Hready. rewrite Hready, Nat.add_0_r. reflexivity.
  - pose proof (Hwait 0%nat ltac:(lia)) as H0. rewrite Nat.add_0_r in H0.
    rewrite H0. destruct (Nat.ltb_spec 0 attempts); [|lia].
    replace (tick + S n)%nat with (S tick + n)%nat by lia.
    apply IH; [|replace (S tick + n)%nat with (tick + S n)%nat by lia; done
               |lia].
    intros i Hi. replace (S tick + i)%nat with (tick + S i)%nat by lia.
    apply Hwait. lia.
Qed.

(** The number of attempts does not bound the polling.  With a positive
    [attempts] (30 by default) the function never gives up: however many
    runs are looked at, it has either applied the filters or still has a
    run queued; it gives up, at its first run, only when [attempts] is 0
    and the list is not ready then. *)
Theorem apply_filters_never_gives_up
    (ready : nat → bool) (attempts fuel : nat) :
  ((0 < attempts)%nat →
     ∀ t, CheckinList.apply_filters_when_ready ready attempts fuel
            ≠ CheckinList.GaveUp t)
  ∧ (attempts = 0%nat → ready 0%nat = false → (0 < fuel)%nat →
     CheckinList.apply_filters_when_ready ready attempts fuel
       = CheckinList.GaveUp 0)
  ∧ ((0 < attempts)%nat → (∀ t, ready t = false) →
     CheckinList.apply_filters_when_ready ready attempts fuel
       = CheckinList.Waiting).
Proof.
  unfold CheckinList.apply_filters_when_ready. split; [|split].
  - intros Hpos t. apply attempt_never_gives_up, Hpos.
  - intros -> H0 Hf. destruct fuel as [|fuel]; [lia|]. simpl.
    rewrite H0. reflexivity.
  - intros Hpos Hnever. generalize 0%nat as tick.
    induction fuel as [|fuel IH]; intros tick; simpl; [reflexivity|].
    rewrite Hnever. destruct (Nat.ltb_spec 0 attempts); [apply IH | lia].
Qed.

(** When the list becomes ready at its [n]-th run, after any number of
    failed runs, even more than [attempts], the filters are applied at
    that run and only then: the filter area is cleared, the caller's
    filter is added, and the filters are applied, in this order. *)
Theorem apply_filters_at_first_ready
    (ready : nat → bool) (attempts n fuel : nat) :
  (0 < attempts)%nat →
  (∀ i, (i < n)%nat → ready i = false) →
  ready n = true →
  (n < fuel)%nat →
  CheckinList.apply_filters_when_ready ready attempts fuel
    = CheckinList.Applied n
        [CheckinList.ClearFilters; CheckinList.ApplyFn; CheckinList.Apply].
Proof.
  intros Hpos Hwait Hready Hfuel.
  exact (attempt_applies_at ready attempts 0 n fuel Hpos Hwait Hready Hfuel).
Qed.

Lemma apply_filters_at_first_ready_witness :
  CheckinList.apply_filters_when_ready (fun t => (45 <=? t)%nat) 30 50
    = CheckinList.Applied 45
        [CheckinList.ClearFilters; CheckinList.ApplyFn; CheckinList.Apply].
Proof.
  apply (apply_filters_at_first_ready (fun t => (45 <=? t)%nat) 30 45 50).
  - lia.
  - intros i Hi. apply Nat.leb_gt. exact Hi.
  - reflexivity.
  - lia.
Defined.

(** ** The import log of an Invoice Run *)

(** Whenever an Invoice Run offers Preview and Create Purchase Invoices it
    offers View Import Log as well, and a Failed run always offers the
    log; the log is withheld exactly when there is no log text, the
    status is neither Parsed nor Failed, and none of the four counters is
    positive. *)
Theorem invoice_run_log_offered
    (d : InvoiceRun.Doc) (c : InvoiceRunLog.Counters) :
  (InvoiceRun.generate_offered d = true →
     InvoiceRunLog.log_offered d c = true)
  ∧ (In InvoiceRunLog.BtnCreatePurchaseInvoices
        (InvoiceRunLog.refresh_buttons d c) →
     In InvoiceRunLog.BtnViewImportLog (InvoiceRunLog.refresh_buttons d c))
  ∧ (InvoiceRun.status d = Some "Failed" →
     InvoiceRunLog.log_offered d c = true)
  ∧ (InvoiceRunLog.log_offered d c = false ↔
       InvoiceRunLog.hasLog c = false
       ∧ InvoiceRun.status d ≠ Some "Parsed"
       ∧ InvoiceRun.status d ≠ Some "Failed"
       ∧ (InvoiceRunLog.parsed_count c <= 0)%Z
       ∧ (InvoiceRun.ready_count d <= 0)%Z
       ∧ (InvoiceRunLog.failed_count c <= 0)%Z
       ∧ (InvoiceRunLog.skipped_count c <= 0)%Z).
Proof.
  assert (InvoiceRun.generate_offered d = true →
          InvoiceRunLog.log_offered d c = true) as Hgen.
  { unfold InvoiceRun.generate_offered, InvoiceRunLog.log_offered,
      InvoiceRunLog.hasParsed.
    intros [H|H]%orb_true_iff; rewrite H;
      rewrite ?orb_true_r; reflexivity. }
  split; [exact Hgen|]. split; [|split].
  - unfold InvoiceRunLog.refresh_buttons.
    destruct (InvoiceRun.generate_offered d) eqn:G.
    + rewrite (Hgen eq_refl). intros _.
      apply in_or_app. right. left. reflexivity.
    + rewrite app_nil_r. intros H. exfalso.
      apply in_app_or in H as [H|H].
      * destruct (InvoiceRun.parse_offered d);
          [destruct H as [H|[]]; discriminate | destruct H].
      * destruct (InvoiceRunLog.log_offered d c);
          [destruct H as [H|[]]; discriminate | destruct H].
  - intros Hs. unfold InvoiceRunLog.log_offered, InvoiceRunLog.hasFailures.
    rewrite Hs. rewrite (bool_decide_eq_true_2 _ eq_refl).
    rewrite !orb_true_r. reflexivity.
  - unfold InvoiceRunLog.log_offered, InvoiceRunLog.hasParsed,
      InvoiceRunLog.hasFailures.
    rewrite !orb_false_iff, !bool_decide_eq_false, !Z.ltb_ge. tauto.
Qed.

(** ** Locking again *)




(** After Create Bank Transactions has succeeded the buttons are rebuilt
    from the status the handler has just written: whatever the document
    was, only Preview is left, so the action cannot be started a second
    time before the reload; after a failure the document is as it was. *)
Theorem create_bank_transactions_hides_button (d : StatementRun.Doc) :
  StatementRun.add_formatter_buttons
    (fst (StatementRun.create_bank_transactions_click d true))
    = [StatementRun.BtnPreview]
  ∧ StatementRun.generate_offered
      (fst (StatementRun.create_bank_transactions_click d true)) = false
  ∧ StatementRun.is_imported
      (fst (StatementRun.create_bank_transactions_click d true)) = true
  ∧ StatementRun.add_formatter_buttons
      (fst (StatementRun.create_bank_transactions_click d false))
    = StatementRun.add_formatter_buttons d.
Proof. repeat split. Qed.

(** ** More on the grouped purchase invoice *)

Section GroupedOrder.
Import FuelConsumption.
Import PrimFloat.

(** The order of the detail rows does not change which cost centres get
    an item; and the item of a cost centre is the same whenever the
    amounts of its own rows come in the same order, wherever the rows of
    the other cost centres stand.  (The total of a group whose own rows
    change places may differ, as doubles are added in row order.) *)
Theorem purchase_invoice_any_order
    (docname : string) (rows rows' : list DetailRow) :
  rows ≡ₚ rows' →
  (∀ k, k ∈ item_cost_center <$> invoice_items docname (group_rows rows)
        ↔ k ∈ item_cost_center <$> invoice_items docname (group_rows rows'))
  ∧ (∀ it, it ∈ invoice_items docname (group_rows rows) →
       group_amounts (item_cost_center it) rows'
         = group_amounts (item_cost_center it) rows →
       it ∈ invoice_items docname (group_rows rows')).
Proof.
  intros Hperm. split.
  - intros k. rewrite !invoice_items_cost_center_elem.
    assert (Hiff : ∀ r1 r2 : list DetailRow, r1 ≡ₚ r2 →
              is_Some (group_rows r1 !! k) → is_Some (group_rows r2 !! k)).
    { intros r1 r2 Hp [v Hv].
      apply group_rows_Some in Hv as ((row & Hin & Hrow) & Hproto & _).
      eexists. apply group_rows_Some.
      split; [|split; [exact Hproto | reflexivity]].
      exists row. split; [|exact Hrow].
      rewrite <- Hp. exact Hin. }
    split; [apply Hiff, Hperm | apply Hiff; symmetry; exact Hperm].
  - intros it Hin Hsame.
    apply invoice_items_elem in Hin as (k & v & Hl & ->).
    cbn [make_item item_cost_center fst] in Hsame.
    apply invoice_items_elem. exists k, v. split; [|reflexivity].
    rewrite group_rows_lookup in *. unfold group_total in *.
    rewrite Hsame. exact Hl.
Qed.

Lemma purchase_invoice_any_order_witness :
  Num 12.5 ∈ rate <$> invoice_items "FC-0001"
      (group_rows
         [ {| cost_center := None; shared_use_cost_center := Some "Shared - C";
              amount_consumed := 5 |};
           {| cost_center := Some "Main - C"; shared_use_cost_center := None;
              amount_consumed := 10 |};
           {| cost_center := Some "Main - C"; shared_use_cost_center := None;
              amount_consumed := 2.5 |} ]).
Proof.
  apply list_elem_of_fmap.
  exists {| item_code := "NS-00106"; qty := 1; rate := Num 12.5;
            amount := Num 12.5; item_cost_center := "Main - C";
            custom_fuel_consumption := "FC-0001" |}.
  split; [reflexivity|].
  apply (proj2 (purchase_invoice_any_order "FC-0001"
           [ {| cost_center := Some "Main - C"; shared_use_cost_center := None;
                amount_consumed := 10 |};
             {| cost_center := None; shared_use_cost_center := Some "Shared - C";
                amount_consumed := 5 |};
             {| cost_center := Some "Main - C"; shared_use_cost_center := None;
                amount_consumed := 2.5 |} ]
           [ {| cost_center := None; shared_use_cost_center := Some "Shared - C";
                amount_consumed := 5 |};
             {| cost_center := Some "Main - C"; shared_use_cost_center := None;
                amount_consumed := 10 |};
             {| cost_center := Some "Main - C"; shared_use_cost_center := None;
                amount_consumed := 2.5 |} ]
           (Permutation_swap _ _ _))).
  - apply invoice_items_elem. exists "Main - C", (Num 12.5).
    split; vm_compute; reflexivity.
  - vm_compute. reflexivity.
Defined.

(** No invoice is requested, and the message is shown instead, exactly
    when every detail row has no cost centre of either kind or is grouped
    under [__proto__]; the empty table is one such case.  As soon as one
    row is grouped under another key, an invoice is requested. *)
Theorem purchase_invoice_needs_cost_centre (d : Doc) :
  let rows := default [] (fuel_consumption_details d) in
  (create_purchase_invoice d = NoData "No fuel consumption data found."
   ↔ ∀ row, row ∈ rows →
       grouping_key row = None ∨ grouping_key row = Some "__proto__")
  ∧ ((∃ row k, row ∈ rows ∧ grouping_key row = Some k ∧ k ≠ "__proto__") →
     ∃ it items, create_purchase_invoice d
                 = InsertPurchaseInvoice "S0026" (it :: items)).
Proof.
  intros rows.
  assert (Hempty : map_to_list (group_rows rows) = [] ↔
            ∀ row, row ∈ rows →
              grouping_key row = None ∨ grouping_key row = Some "__proto__").
  { rewrite map_to_list_empty_iff. split.
    - intros He row Hin.
      destruct (grouping_key row) as [k|] eqn:Hrow; [|left; reflexivity].
      right. f_equal.
      assert (Hn : group_rows rows !! k = None) by (rewrite He; apply lookup_empty).
      apply group_rows_None in Hn as [Hn|Hn]; [|exact Hn].
      destruct (Hn row Hin Hrow).
    - intros H. apply map_eq. intros k. rewrite lookup_empty.
      apply group_rows_None.
      destruct (decide (k = "__proto__")) as [Hp|Hp]; [right; exact Hp|].
      left. intros row Hin Hrow.
      destruct (H row Hin) as [Hk|Hk]; congruence. }
  unfold create_purchase_invoice. fold rows. unfold invoice_items.
  destruct (map_to_list (group_rows rows)) as [|kv l] eqn:Hl; cbn.
  - split.
    + split; [intros _; apply Hempty; reflexivity | reflexivity].
    + intros (row & k & Hin & Hrow & Hp). exfalso.
      destruct (proj1 Hempty eq_refl row Hin) as [Hk|Hk]; congruence.
  - split.
    + split; [discriminate|]. intros H. apply Hempty in H. discriminate.
    + intros _. eexists _, _. reflexivity.
Qed.

End GroupedOrder.

(** ** More on the credit note *)

(** A credit-note quantity is minus the size of the returned quantity,
    whichever sign the row carried; so a quantity that went through once
    goes through unchanged a second time. *)
Theorem credit_qty_minus_abs (q : option Q) :
  (∀ v, q = Some v →
     ∃ v', SalesReturn.credit_qty q = Some v' ∧ (v' == - Qabs v)%Q)
  ∧ (q = None → SalesReturn.credit_qty q = None)
  ∧ SalesReturn.credit_qty (SalesReturn.credit_qty q)
    = SalesReturn.credit_qty q.
Proof.
  split; [|split].
  - intros v ->. simpl. destruct (Qle_bool v 0) eqn:E; simpl.
    + apply Qle_bool_iff in E. exists v. split; [reflexivity|].
      rewrite (Qabs_neg v E). ring.
    + assert (0 <= v)%Q as Hpos.
      { apply Qlt_le_weak, Qnot_le_lt. intros H.
        apply Qle_bool_iff in H. congruence. }
      eexists. split; [reflexivity|]. rewrite (Qabs_pos v Hpos). ring.
  - intros ->. reflexivity.
  - destruct q as [v|]; [|reflexivity]. simpl.
    destruct (Qle_bool v 0) eqn:E; simpl; [rewrite E; reflexivity|].
    assert (Qle_bool (-1 * v) 0 = true) as ->; [|reflexivity].
    apply Qle_bool_iff.
    assert (¬ (v <= 0)%Q) as Hn
      by (intros H; apply Qle_bool_iff in H; congruence).
    lra.
Qed.

(** ** The shape of the validator's report *)

(** The list of missing fields never names a field twice, never has more
    than five entries, and never mixes the two schemes: it does not name
    the amount column together with the credit or the debit column. *)
Theorem missing_fields_shape (d : StatementRun.Doc) :
  NoDup (StatementRun.missing_fields d)
  ∧ (length (StatementRun.missing_fields d) <= 5)%nat
  ∧ ¬ ("Amount Column" ∈ StatementRun.missing_fields d
       ∧ ("Credit Column" ∈ StatementRun.missing_fields d
          ∨ "Debit Column" ∈ StatementRun.missing_fields d)).
Proof.
  unfold StatementRun.missing_fields.
  destruct (Js.truthy_str (StatementRun.source_file d)),
           (Js.truthy_str (StatementRun.date_column d)),
           (Js.truthy_str (StatementRun.description_column d)),
           (Js.truthy_int (StatementRun.has_credit_debit_columns d)),
           (Js.truthy_str (StatementRun.credit_column d)),
           (Js.truthy_str (StatementRun.debit_column d)),
           (Js.truthy_str (StatementRun.amount_column d));
    simpl;
    (split; [refine (bool_decide_unpack _ _); vm_compute; exact I|]);
    (split; [lia|]);
    refine (bool_decide_unpack _ _); vm_compute; exact I.
Qed.

(** ** A barcode of blanks *)

Lemma drop_space_blank (backwards : bool) (s : string) :
  Text.blank s = true → Text.drop_space backwards s = "".
Proof.
  induction s as [|c r IH]; simpl; [reflexivity|].
  intros [Hc Hr]%andb_true_iff. rewrite Hc. apply IH, Hr.
Qed.

Lemma trim_blank (s : string) : Text.blank s = true → Text.trim s = "".
Proof.
  intros H. unfold Text.trim. rewrite (drop_space_blank false s H).
  reflexivity.
Qed.

(** A scan field that holds nothing but blanks (spaces, tabs, line
    breaks) sends no request: the operator is told that the barcode is
    empty, the field is cleared and the rows stay as they are. *)
Theorem scan_of_blanks (f : BarcodeScan.Form) (s : string) :
  BarcodeScan.scan_barcode f = Some s →
  s ≠ "" →
  Text.blank s = true →
  BarcodeScan.scan_barcode_changed f
    = ({| BarcodeScan.scan_barcode := Some "";
          BarcodeScan.items := BarcodeScan.items f |},
       [Js.Msgprint "Scanned barcode is empty."]).
Proof.
  intros Hs Hne Hb. unfold BarcodeScan.scan_barcode_changed.
  rewrite Hs. apply truthy_str_Some in Hne. rewrite Hne. simpl.
  unfold Js.or_empty, Js.or_str. rewrite Hne.
  rewrite (trim_blank s Hb). reflexivity.
Qed.

Lemma scan_of_blanks_witness :
  BarcodeScan.scan_barcode_changed
    {| BarcodeScan.scan_barcode := Some "   ";
       BarcodeScan.items := Some [BarcodeScan.new_row "ITEM-001"] |}
    = ({| BarcodeScan.scan_barcode := Some "";
          BarcodeScan.items := Some [BarcodeScan.new_row "ITEM-001"] |},
       [Js.Msgprint "Scanned barcode is empty."]).
Proof.
  apply (scan_of_blanks
           {| BarcodeScan.scan_barcode := Some "   ";
              BarcodeScan.items := Some [BarcodeScan.new_row "ITEM-001"] |}
           "   "); [reflexivity | discriminate | reflexivity].
Defined.

(** ** Field access of a Vehicle *)

Lemma static_not_conditional (fn : string) :
  fn ∈ Vehicle.static_fields → fn ∉ Vehicle.conditionally_editable_fields.
Proof.
  unfold Vehicle.static_fields. intros Hin.
  repeat (apply elem_of_cons in Hin as [->|Hin];
          [refine (bool_decide_unpack _ _); vm_compute; exact I|]).
  inversion Hin.
Qed.

Lemma vehicle_toggle_lookup (d : Vehicle.Doc) (ro : gmap string Z)
      (fn : string) :
  Vehicle.toggle_field_access d ro !! fn =
    if decide (fn ∈ Vehicle.static_fields)
    then (fun _ => if Vehicle.islocal d then 0 else 1)%Z <$> (ro !! fn)
    else if decide (fn ∈ Vehicle.conditionally_editable_fields)
         then (fun _ => if Vehicle.is_editable d then 0 else 1)%Z
                <$> (ro !! fn)
         else ro !! fn.
Proof.
  unfold Vehicle.toggle_field_access.
  rewrite !set_read_only_all_lookup.
  destruct (decide (fn ∈ Vehicle.static_fields)) as [Hs|Hs].
  - rewrite decide_False by (apply static_not_conditional, Hs).
    reflexivity.
  - reflexivity.
Qed.

(** On a saved Vehicle the static fields (plate, model year, make, model,
    type, cold chain, colour) are read-only in every workflow state, and
    the conditionally editable fields are editable exactly in 'Update in
    Progress'; on a new Vehicle both kinds are editable.  No other field
    is touched, and the outcome depends on the present document only:
    running the function again, after any earlier run, gives what one run
    gives. *)
Theorem vehicle_field_access (d : Vehicle.Doc) (ro : gmap string Z) :
  (∀ fn, fn ∈ Vehicle.static_fields → is_Some (ro !! fn) →
     Vehicle.toggle_field_access d ro !! fn
       = Some (if Vehicle.islocal d then 0 else 1)%Z)
  ∧ (∀ fn, fn ∈ Vehicle.conditionally_editable_fields →
       is_Some (ro !! fn) →
       ∃ v, Vehicle.toggle_field_access d ro !! fn = Some v
            ∧ (v = 0%Z ↔
                 Vehicle.islocal d = true
                 ∨ Vehicle.workflow_state d = Some "Update in Progress")
            ∧ (v = 0 ∨ v = 1)%Z)
  ∧ (∀ fn, fn ∉ Vehicle.static_fields →
       fn ∉ Vehicle.conditionally_editable_fields →
       Vehicle.toggle_field_access d ro !! fn = ro !! fn)
  ∧ (∀ d0, Vehicle.toggle_field_access d (Vehicle.toggle_field_access d0 ro)
           = Vehicle.toggle_field_access d ro).
Proof.
  split; [|split; [|split]].
  - intros fn Hin [v Hv]. rewrite vehicle_toggle_lookup, decide_True by done.
    rewrite Hv. reflexivity.
  - intros fn Hin [v Hv]. rewrite vehicle_toggle_lookup.
    rewrite decide_False
      by (intros Hs; exact (static_not_conditional fn Hs Hin)).
    rewrite decide_True by done. rewrite Hv. simpl.
    eexists. split; [reflexivity|].
    unfold Vehicle.is_editable.
    destruct (Vehicle.islocal d); simpl.
    + split; [split; auto | auto].
    + case_bool_decide as E; split; try (split; auto; fail); auto.
      split; [discriminate | intros [?|?]; congruence].
  - intros fn Hs Hc. rewrite vehicle_toggle_lookup.
    rewrite !decide_False by done. reflexivity.
  - intros d0. apply map_eq. intros fn. rewrite !vehicle_toggle_lookup.
    destruct (decide (fn ∈ Vehicle.static_fields));
      [destruct (ro !! fn); reflexivity|].
    destruct (decide (fn ∈ Vehicle.conditionally_editable_fields));
      [destruct (ro !! fn); reflexivity | reflexivity].
Qed.

(** ** Field access of a Fuel Card *)

Section FuelCardAccess.
Import FuelCard.

Local Abbreviation locked :=
  (fun fld : Field =>
     {| hidden := false; read_only := true; reqd := false;
        options := options fld |}).

Lemma set_df_lookup (change : Field → Field) (fn : string)
      (fm : gmap string Field) (k : string) :
  set_df change fn fm !! k
    = if decide (fn = k) then change <$> (fm !! k) else fm !! k.
Proof.
  unfold set_df. rewrite lookup_alter.
  case_decide; subst; reflexivity.
Qed.

Lemma lock_one_lookup (fn : string) (fm : gmap string Field) (k : string) :
  lock_one fn fm !! k
    = if decide (fn = k) then locked <$> (fm !! k) else fm !! k.
Proof.
  unfold lock_one. rewrite !set_df_lookup.
  case_decide; [|reflexivity]. destruct (fm !! k); reflexivity.
Qed.

Lemma lock_all_lookup (l : list string) (f0 : gmap string Field)
      (k : string) :
  foldl (fun fm fn => lock_one fn fm) f0 l !! k
    = if decide (k ∈ l) then locked <$> (f0 !! k) else f0 !! k.
Proof.
  revert f0. induction l as [|a l IH]; intros f0; cbn [foldl].
  - destruct (decide (k ∈ [])) as [Hin|_]; [inversion Hin | reflexivity].
  - rewrite IH, lock_one_lookup.
    destruct (decide (a = k)) as [->|Hne].
    + rewrite (decide_True (P := k ∈ k :: l)) by (apply list_elem_of_here).
      case_decide; destruct (f0 !! k); reflexivity.
    + destruct (decide (k ∈ l)) as [Hin|Hout].
      * rewrite decide_True by (apply list_elem_of_further, Hin).
        reflexivity.
      * rewrite decide_False; [reflexivity|].
        intros [->|Hin]%elem_of_cons; [apply Hne; reflexivity | auto].
Qed.

(** On a cancelled Fuel Card every field of the lock list that the form
    has ends read-only, shown and not required, with its options as they
    were; no other field changes, the document is left as it is and the
    employee picker gets no filter. *)
Theorem fuel_card_cancelled (d : Doc) (f0 : gmap string Field) :
  workflow_state d = Some "Cancelled" →
  (∀ fn fld, fn ∈ lock_all_fields → f0 !! fn = Some fld →
     form (toggle_field_access d f0) !! fn
       = Some {| hidden := false; read_only := true; reqd := false;
                 options := options fld |})
  ∧ (∀ fn, fn ∉ lock_all_fields →
       form (toggle_field_access d f0) !! fn = f0 !! fn)
  ∧ doc (toggle_field_access d f0) = d
  ∧ employee_query (toggle_field_access d f0) = None.
Proof.
  intros Hc. unfold toggle_field_access.
  rewrite (bool_decide_eq_true_2 _ Hc). cbn [form doc employee_query].
  split; [|split; [|split; reflexivity]].
  - intros fn fld Hin Hfld.
    rewrite (lock_all_lookup lock_all_fields), decide_True by exact Hin.
    rewrite Hfld. reflexivity.
  - intros fn Hout.
    rewrite (lock_all_lookup lock_all_fields), decide_False by exact Hout.
    reflexivity.
Qed.

Lemma fuel_card_cancelled_witness :
  form (toggle_field_access
          {| islocal := false; workflow_state := Some "Cancelled";
             card_assignment_type := Some "Shared Use";
             vehicle := None; department := None |}
          {[ "department" :=
               {| hidden := true; read_only := false; reqd := true;
                  options := Some "Department" |} ]})
    !! "department"
  = Some {| hidden := false; read_only := true; reqd := false;
            options := Some "Department" |}.
Proof.
  apply (proj1 (fuel_card_cancelled
                  {| islocal := false; workflow_state := Some "Cancelled";
                     card_assignment_type := Some "Shared Use";
                     vehicle := None; department := None |}
                  {[ "department" :=
                       {| hidden := true; read_only := false; reqd := true;
                          options := Some "Department" |} ]}
                  eq_refl)
           "department"
           {| hidden := true; read_only := false; reqd := true;
              options := Some "Department" |}).
  - refine (bool_decide_unpack _ _); vm_compute; exact I.
  - vm_compute; reflexivity.
Defined.

Lemma set_df_lookup_eq (change : Field → Field) (fn : string)
      (fm : gmap string Field) :
  set_df change fn fm !! fn = change <$> (fm !! fn).
Proof. rewrite set_df_lookup, decide_True by reflexivity. reflexivity. Qed.

Lemma set_df_lookup_ne (change : Field → Field) (fn : string)
      (fm : gmap string Field) (k : string) :
  fn ≠ k → set_df change fn fm !! k = fm !! k.
Proof. intros H. rewrite set_df_lookup, decide_False by exact H. reflexivity. Qed.

Lemma lookup_if (b : bool) (m1 m2 : gmap string Field) (k : string) :
  (if b then m1 else m2) !! k = if b then m1 !! k else m2 !! k.
Proof. destruct b; reflexivity. Qed.

Ltac open_form Hc :=
  unfold toggle_field_access;
  rewrite (bool_decide_eq_false_2 _ Hc);
  cbv zeta; cbn [form];
  repeat first [ rewrite lookup_if
               | rewrite set_df_lookup_eq
               | rewrite set_df_lookup_ne by discriminate
               | rewrite set_df_lookup_ne by assumption ].

Ltac by_flags d :=
  repeat match goal with
         | |- context [bool_decide ?P] => destruct (bool_decide P)
         end;
  destruct (islocal d); reflexivity.

Lemma form_vehicle (d : Doc) (f0 : gmap string Field) :
  workflow_state d ≠ Some "Cancelled" →
  form (toggle_field_access d f0) !! "vehicle"
  = (fun fld =>
       let vl := bool_decide (card_assignment_type d = Some "Vehicle Locked") in
       {| hidden := negb vl;
          read_only := negb (islocal d) && vl;
          reqd := vl && islocal d;
          options := options fld |}) <$> (f0 !! "vehicle").
Proof.
  intros Hc. open_form Hc. destruct (f0 !! "vehicle"); cbv zeta; simpl fmap;
    by_flags d.
Qed.

Lemma form_employee (d : Doc) (f0 : gmap string Field) :
  workflow_state d ≠ Some "Cancelled" →
  form (toggle_field_access d f0) !! "employee"
  = (fun fld =>
       let upd :=
         bool_decide (workflow_state d = Some "Update in Progress")
         || islocal d in
       let vl := bool_decide (card_assignment_type d = Some "Vehicle Locked") in
       let ea :=
         bool_decide (card_assignment_type d = Some "Employee Assigned") in
       {| hidden := bool_decide (card_assignment_type d = Some "Shared Use");
          read_only := (vl && negb upd) || (ea && negb upd);
          reqd := ea && upd;
          options := options fld |}) <$> (f0 !! "employee").
Proof.
  intros Hc. open_form Hc. destruct (f0 !! "employee"); cbv zeta; simpl fmap;
    by_flags d.
Qed.

Lemma form_department (d : Doc) (f0 : gmap string Field) :
  workflow_state d ≠ Some "Cancelled" →
  form (toggle_field_access d f0) !! "department"
  = (fun fld =>
       let upd :=
         bool_decide (workflow_state d = Some "Update in Progress")
         || islocal d in
       let su := bool_decide (card_assignment_type d = Some "Shared Use") in
       {| hidden := false;
          read_only := if su then negb upd else true;
          reqd := if su then reqd fld else false;
          options := options fld |}) <$> (f0 !! "department").
Proof.
  intros Hc. open_form Hc. destruct (f0 !! "department"); cbv zeta; simpl fmap;
    by_flags d.
Qed.

Lemma form_budget (d : Doc) (f0 : gmap string Field) :
  workflow_state d ≠ Some "Cancelled" →
  form (toggle_field_access d f0) !! "monthly_fuel_budget"
  = (fun fld =>
       {| hidden := hidden fld;
          read_only :=
            negb (bool_decide (workflow_state d = Some "Update in Progress")
                  || islocal d);
          reqd := reqd fld;
          options := options fld |}) <$> (f0 !! "monthly_fuel_budget").
Proof.
  intros Hc. open_form Hc.
  destruct (f0 !! "monthly_fuel_budget"); simpl fmap; by_flags d.
Qed.

Lemma form_expiry (d : Doc) (f0 : gmap string Field) :
  workflow_state d ≠ Some "Cancelled" →
  form (toggle_field_access d f0) !! "fuel_card_expiry_date"
  = (fun fld =>
       {| hidden := hidden fld;
          read_only := negb (islocal d);
          reqd := reqd fld;
          options := options fld |}) <$> (f0 !! "fuel_card_expiry_date").
Proof.
  intros Hc. open_form Hc.
  destruct (f0 !! "fuel_card_expiry_date"); simpl fmap; by_flags d.
Qed.

Lemma form_assignment_type (d : Doc) (f0 : gmap string Field) :
  workflow_state d ≠ Some "Cancelled" →
  form (toggle_field_access d f0) !! "card_assignment_type"
  = (fun fld =>
       let al :=
         negb (islocal d)
         && (bool_decide (card_assignment_type d = Some "Vehicle Locked")
             || negb (bool_decide
                        (workflow_state d = Some "Update in Progress"))) in
       {| hidden := hidden fld;
          read_only := al;
          reqd := reqd fld;
          options := Some (if al || islocal d
                           then all_options else editable_options) |})
      <$> (f0 !! "card_assignment_type").
Proof.
  intros Hc. open_form Hc.
  destruct (f0 !! "card_assignment_type"); cbv zeta; simpl fmap; by_flags d.
Qed.

Lemma form_other (d : Doc) (f0 : gmap string Field) (k : string) :
  workflow_state d ≠ Some "Cancelled" →
  "vehicle" ≠ k → "employee" ≠ k → "department" ≠ k →
  "monthly_fuel_budget" ≠ k → "fuel_card_expiry_date" ≠ k →
  "card_assignment_type" ≠ k →
  form (toggle_field_access d f0) !! k = f0 !! k.
Proof.
  intros Hc H1 H2 H3 H4 H5 H6. open_form Hc. by_flags d.
Qed.

Lemma toggle_doc (d : Doc) (f0 : gmap string Field) :
  doc (toggle_field_access d f0)
  = if islocal d
       && bool_decide (card_assignment_type d = Some "Shared Use")
       && negb (bool_decide (workflow_state d = Some "Cancelled"))
       && negb (Js.truthy_str (department d))
    then set_department d "General Services - AJC" else d.
Proof.
  unfold toggle_field_access. cbv zeta.
  repeat match goal with
         | |- context [bool_decide ?P] => destruct (bool_decide P)
         end;
    destruct (islocal d); destruct (Js.truthy_str (department d));
    reflexivity.
Qed.

Lemma toggle_query (d : Doc) (f0 : gmap string Field) :
  employee_query (toggle_field_access d f0)
  = if bool_decide (workflow_state d = Some "Cancelled") then None
    else Some (if bool_decide (card_assignment_type d = Some "Vehicle Locked")
                  && Js.truthy_str (vehicle d)
               then EmployeeOfVehicle (Js.or_empty (vehicle d))
               else ActiveEmployees).
Proof.
  unfold toggle_field_access. cbv zeta.
  destruct (bool_decide (workflow_state d = Some "Cancelled"));
    reflexivity.
Qed.

Lemma outcome_eq (o1 o2 : Outcome) :
  form o1 = form o2 → doc o1 = doc o2 →
  employee_query o1 = employee_query o2 → o1 = o2.
Proof. destruct o1, o2; simpl; congruence. Qed.

Ltac split_doc d :=
  destruct d as [is_new ws ty v dep]; cbn [islocal workflow_state
    card_assignment_type vehicle department] in *;
  destruct is_new; repeat (case_bool_decide; simplify_eq);
  cbn [negb andb orb].

(** The assignment type of a Fuel Card that is not cancelled: the field
    can be edited exactly on a new card, or in 'Update in Progress' when
    the card is not 'Vehicle Locked'; the shorter option list, without
    'Vehicle Locked', is offered exactly when a saved card can be edited,
    and the full list otherwise; whether the field is hidden or required
    does not change. *)
Theorem fuel_card_assignment_type
        (d : Doc) (f0 : gmap string Field) (fld : Field) :
  workflow_state d ≠ Some "Cancelled" →
  f0 !! "card_assignment_type" = Some fld →
  ∃ fld',
    form (toggle_field_access d f0) !! "card_assignment_type" = Some fld'
    ∧ hidden fld' = hidden fld
    ∧ reqd fld' = reqd fld
    ∧ (read_only fld' = false ↔
         islocal d = true
         ∨ (workflow_state d = Some "Update in Progress"
            ∧ card_assignment_type d ≠ Some "Vehicle Locked"))
    ∧ (options fld' = Some editable_options ↔
         islocal d = false ∧ read_only fld' = false)
    ∧ (options fld' = Some editable_options
       ∨ options fld' = Some all_options).
Proof.
  intros Hc Hfld. rewrite (form_assignment_type d f0 Hc), Hfld.
  eexists; split; [reflexivity|].
  cbv zeta. cbn [hidden reqd read_only options].
  split; [reflexivity|]. split; [reflexivity|].
  split_doc d;
    (repeat split; auto; try discriminate; try tauto;
     try (intros [?|[? ?]]; congruence);
     try (intros [? ?]; congruence)).
Qed.

Lemma fuel_card_assignment_type_witness :
  ∃ fld',
    form (toggle_field_access
            {| islocal := false;
               workflow_state := Some "Update in Progress";
               card_assignment_type := Some "Employee Assigned";
               vehicle := None; department := None |}
            {[ "card_assignment_type" :=
                 {| hidden := false; read_only := true; reqd := true;
                    options := Some all_options |} ]})
      !! "card_assignment_type" = Some fld'
    ∧ read_only fld' = false
    ∧ options fld' = Some editable_options.
Proof.
  destruct (fuel_card_assignment_type
              {| islocal := false;
                 workflow_state := Some "Update in Progress";
                 card_assignment_type := Some "Employee Assigned";
                 vehicle := None; department := None |}
              {[ "card_assignment_type" :=
                   {| hidden := false; read_only := true; reqd := true;
                      options := Some all_options |} ]}
              {| hidden := false; read_only := true; reqd := true;
                 options := Some all_options |})
    as (fld' & Hl & _ & _ & Hro & Hopt & _);
    [discriminate | vm_compute; reflexivity |].
  exists fld'.
  assert (Hr : read_only fld' = false).
  { apply Hro. right. split; [reflexivity | discriminate]. }
  split; [exact Hl | split; [exact Hr |]].
  apply Hopt. split; [reflexivity | exact Hr].
Defined.

(** The department of a Fuel Card that is not cancelled is always shown
    and keeps its options; it can be edited exactly on a 'Shared Use'
    card that is new or in 'Update in Progress'.  On a 'Shared Use' card
    whether it is required stays as it was; on any other card it is not
    required. *)
Theorem fuel_card_department
        (d : Doc) (f0 : gmap string Field) (fld : Field) :
  workflow_state d ≠ Some "Cancelled" →
  f0 !! "department" = Some fld →
  ∃ fld',
    form (toggle_field_access d f0) !! "department" = Some fld'
    ∧ hidden fld' = false
    ∧ options fld' = options fld
    ∧ (read_only fld' = false ↔
         card_assignment_type d = Some "Shared Use"
         ∧ (islocal d = true
            ∨ workflow_state d = Some "Update in Progress"))
    ∧ reqd fld'
      = (if bool_decide (card_assignment_type d = Some "Shared Use")
         then reqd fld else false).
Proof.
  intros Hc Hfld. rewrite (form_department d f0 Hc), Hfld.
  eexists; split; [reflexivity|].
  cbv zeta. cbn [hidden reqd read_only options].
  split; [reflexivity|]. split; [reflexivity|].
  split; [|reflexivity].
  split_doc d;
    (repeat split; auto; try discriminate; try tauto;
     try (intros [? [?|?]]; congruence)).
Qed.

Lemma fuel_card_department_witness :
  ∃ fld',
    form (toggle_field_access
            {| islocal := false; workflow_state := Some "In Use";
               card_assignment_type := Some "Shared Use";
               vehicle := None; department := Some "Sales - AJC" |}
            {[ "department" :=
                 {| hidden := true; read_only := false; reqd := true;
                    options := Some "Department" |} ]})
      !! "department" = Some fld'
    ∧ hidden fld' = false
    ∧ reqd fld' = true.
Proof.
  destruct (fuel_card_department
              {| islocal := false; workflow_state := Some "In Use";
                 card_assignment_type := Some "Shared Use";
                 vehicle := None; department := Some "Sales - AJC" |}
              {[ "department" :=
                   {| hidden := true; read_only := false; reqd := true;
                      options := Some "Department" |} ]}
              {| hidden := true; read_only := false; reqd := true;
                 options := Some "Department" |})
    as (fld' & Hl & Hh & _ & _ & Hq);
    [discriminate | vm_compute; reflexivity |].
  exists fld'. split; [exact Hl | split; [exact Hh | exact Hq]].
Defined.

(** The function changes the document in one case only: on a new 'Shared
    Use' card that is not cancelled and has no department, the department
    becomes 'General Services - AJC'.  So a new 'Shared Use' card that is
    not cancelled always leaves with a department. *)
Theorem fuel_card_default_department (d : Doc) (f0 : gmap string Field) :
  islocal (doc (toggle_field_access d f0)) = islocal d
  ∧ workflow_state (doc (toggle_field_access d f0)) = workflow_state d
  ∧ card_assignment_type (doc (toggle_field_access d f0))
    = card_assignment_type d
  ∧ vehicle (doc (toggle_field_access d f0)) = vehicle d
  ∧ department (doc (toggle_field_access d f0))
    = (if islocal d
          && bool_decide (card_assignment_type d = Some "Shared Use")
          && negb (bool_decide (workflow_state d = Some "Cancelled"))
          && negb (Js.truthy_str (department d))
       then Some "General Services - AJC" else department d)
  ∧ (islocal d = true →
     card_assignment_type d = Some "Shared Use" →
     workflow_state d ≠ Some "Cancelled" →
     Js.truthy_str (department (doc (toggle_field_access d f0))) = true).
Proof.
  rewrite toggle_doc.
  destruct (Js.truthy_str (department d)) eqn:Hdep;
    split_doc d; cbn [islocal workflow_state card_assignment_type vehicle
                      department set_department];
    repeat split; auto; try congruence; intros; congruence.
Qed.

(** A vehicle or employee field that ends required can be filled in: it
    is neither hidden nor read-only, whatever the card and whatever the
    form held before. *)
Theorem fuel_card_required_fillable
        (d : Doc) (f0 : gmap string Field) (fn : string) (fld' : Field) :
  fn = "vehicle" ∨ fn = "employee" →
  form (toggle_field_access d f0) !! fn = Some fld' →
  reqd fld' = true →
  hidden fld' = false ∧ read_only fld' = false.
Proof.
  intros Hfn.
  destruct (decide (workflow_state d = Some "Cancelled")) as [Hc|Hc].
  - unfold toggle_field_access.
    rewrite (bool_decide_eq_true_2 _ Hc). cbn [form].
    rewrite (lock_all_lookup lock_all_fields).
    case_decide as Hin.
    + destruct (f0 !! fn); simpl fmap; [|discriminate].
      intros [= <-]. cbn [reqd]. discriminate.
    + exfalso. apply Hin.
      destruct Hfn as [->| ->];
        refine (bool_decide_unpack _ _); vm_compute; exact I.
  - destruct Hfn as [->| ->].
    + rewrite (form_vehicle d f0 Hc).
      destruct (f0 !! "vehicle"); simpl fmap; [|discriminate].
      intros [= <-]. cbv zeta. cbn [hidden reqd read_only].
      destruct (islocal d), (bool_decide _); simpl; auto; discriminate.
    + rewrite (form_employee d f0 Hc).
      destruct (f0 !! "employee"); simpl fmap; [|discriminate].
      intros [= <-]. cbv zeta. cbn [hidden reqd read_only].
      split_doc d; intros; auto; discriminate.
Qed.

Lemma fuel_card_required_fillable_witness :
  form (toggle_field_access
          {| islocal := true; workflow_state := None;
             card_assignment_type := Some "Vehicle Locked";
             vehicle := None; department := None |}
          {[ "vehicle" :=
               {| hidden := true; read_only := true; reqd := false;
                  options := Some "Vehicle" |} ]})
    !! "vehicle"
  = Some {| hidden := false; read_only := false; reqd := true;
            options := Some "Vehicle" |}
  ∧ hidden {| hidden := false; read_only := false; reqd := true;
              options := Some "Vehicle" |} = false
  ∧ read_only {| hidden := false; read_only := false; reqd := true;
                 options := Some "Vehicle" |} = false.
Proof.
  split; [vm_compute; reflexivity|].
  apply (fuel_card_required_fillable
           {| islocal := true; workflow_state := None;
              card_assignment_type := Some "Vehicle Locked";
              vehicle := None; department := None |}
           {[ "vehicle" :=
                {| hidden := true; read_only := true; reqd := false;
                   options := Some "Vehicle" |} ]}
           "vehicle");
    [left; reflexivity | vm_compute; reflexivity | reflexivity].
Defined.

Lemma toggle_doc_flags (d : Doc) (f0 : gmap string Field) :
  islocal (doc (toggle_field_access d f0)) = islocal d
  ∧ workflow_state (doc (toggle_field_access d f0)) = workflow_state d
  ∧ card_assignment_type (doc (toggle_field_access d f0))
    = card_assignment_type d
  ∧ vehicle (doc (toggle_field_access d f0)) = vehicle d.
Proof.
  rewrite toggle_doc.
  match goal with |- context [if ?b then _ else _] => destruct b end;
    repeat split; reflexivity.
Qed.

Lemma toggle_doc_again (d : Doc) (f0 f1 : gmap string Field) :
  doc (toggle_field_access (doc (toggle_field_access d f0)) f1)
  = doc (toggle_field_access d f0).
Proof.
  rewrite (toggle_doc (doc (toggle_field_access d f0))).
  destruct (toggle_doc_flags d f0) as (-> & -> & -> & _).
  rewrite (toggle_doc d f0).
  destruct (islocal d); cbn [andb]; [|reflexivity].
  destruct (bool_decide (card_assignment_type d = Some "Shared Use"));
    cbn [andb]; [|reflexivity].
  destruct (bool_decide (workflow_state d = Some "Cancelled"));
    cbn [andb negb]; [reflexivity|].
  destruct (Js.truthy_str (department d)) eqn:Hdep; cbn [negb].
  - rewrite Hdep. reflexivity.
  - reflexivity.
Qed.

(** Running the function again on what it left changes nothing: the
    form, the document and the filter of the employee picker are those of
    the first run. *)
Theorem fuel_card_toggle_again (d : Doc) (f0 : gmap string Field) :
  toggle_field_access (doc (toggle_field_access d f0))
                      (form (toggle_field_access d f0))
    = toggle_field_access d f0.
Proof.
  apply outcome_eq.
  - destruct (toggle_doc_flags d f0) as (Hn & Hw & Ht & _).
    destruct (decide (workflow_state d = Some "Cancelled")) as [Hc|Hc].
    + assert (Hc' : workflow_state (doc (toggle_field_access d f0))
                    = Some "Cancelled") by congruence.
      apply map_eq. intros k.
      unfold toggle_field_access at 1.
      rewrite (bool_decide_eq_true_2 _ Hc'). cbn [form].
      unfold toggle_field_access.
      rewrite (bool_decide_eq_true_2 _ Hc). cbn [form].
      rewrite !(lock_all_lookup lock_all_fields).
      case_decide; [|reflexivity]. destruct (f0 !! k); reflexivity.
    + assert (Hc' : workflow_state (doc (toggle_field_access d f0))
                    ≠ Some "Cancelled") by congruence.
      apply map_eq. intros k.
      destruct (decide ("vehicle" = k)) as [<-|H1].
      { rewrite (form_vehicle _ _ Hc'), (form_vehicle d f0 Hc), Hn, Ht.
        destruct (f0 !! "vehicle"); cbv zeta; simpl fmap; by_flags d. }
      destruct (decide ("employee" = k)) as [<-|H2].
      { rewrite (form_employee _ _ Hc'), (form_employee d f0 Hc), Hn, Hw, Ht.
        destruct (f0 !! "employee"); cbv zeta; simpl fmap; by_flags d. }
      destruct (decide ("department" = k)) as [<-|H3].
      { rewrite (form_department _ _ Hc'), (form_department d f0 Hc),
          Hn, Hw, Ht.
        destruct (f0 !! "department"); cbv zeta; simpl fmap; by_flags d. }
      destruct (decide ("monthly_fuel_budget" = k)) as [<-|H4].
      { rewrite (form_budget _ _ Hc'), (form_budget d f0 Hc), Hn, Hw.
        destruct (f0 !! "monthly_fuel_budget"); simpl fmap; by_flags d. }
      destruct (decide ("fuel_card_expiry_date" = k)) as [<-|H5].
      { rewrite (form_expiry _ _ Hc'), (form_expiry d f0 Hc), Hn.
        destruct (f0 !! "fuel_card_expiry_date"); simpl fmap; by_flags d. }
      destruct (decide ("card_assignment_type" = k)) as [<-|H6].
      { rewrite (form_assignment_type _ _ Hc'),
          (form_assignment_type d f0 Hc), Hn, Hw, Ht.
        destruct (f0 !! "card_assignment_type"); cbv zeta; simpl fmap;
          by_flags d. }
      rewrite (form_other _ _ k Hc' H1 H2 H3 H4 H5 H6). reflexivity.
  - apply toggle_doc_again.
  - destruct (toggle_doc_flags d f0) as (_ & Hw & Ht & Hv).
    rewrite !toggle_query, Hw, Ht, Hv. reflexivity.
Qed.

End FuelCardAccess.
